(** * The team-label resource of the Linear Terraform provider

    A shallow embedding of [internal/provider/resource_team_label.go]:
    the resource model, the request input built from a plan, the five
    lifecycle operations ([Create], [Read], [Update], [Delete],
    [ImportState]) and the schema returned by [GetSchema].

    Go strings are byte strings, rendered as [string].  A Go [error] is
    rendered by the text its [Error()] method returns, which is all the
    source ever uses of it (through the [%s] verb).  The remote GraphQL
    operations are the events of a small program type [Prog]; a program
    is run against an arbitrary server, and the run records every remote
    call, with its reply, in a log.  The operations are methods of the
    resource and take it as their first argument: it holds the client
    pointer they dereference for the call. *)

From Stdlib Require Import Ascii String.
From stdpp Require Import base decidable strings list gmap pretty.

Local Open Scope string_scope.
Local Open Scope list_scope.

(** ** Framework values: [types.String] *)

Module types.

(** [types.String] of terraform-plugin-framework: a string that may be
    unknown or null.  The source builds known values with the composite
    literal [types.String{Value: v}], which leaves both flags false. *)
Record String := mkString {
  Unknown : bool;
  Null : bool;
  Value : string
}.

Definition IsNull (s : String) : bool := Null s.
Definition IsUnknown (s : String) : bool := Unknown s.

(** The literal [types.String{Value: v}]. *)
Definition OfValue (v : string) : String :=
  {| Unknown := false; Null := false; Value := v |}.

(** The null string as the framework hands it over: the flag is set and
    the value field holds Go's zero string. *)
Definition NullValue : String :=
  {| Unknown := false; Null := true; Value := "" |}.

Definition UnknownValue : String :=
  {| Unknown := true; Null := false; Value := "" |}.

#[global] Instance String_eq_dec : EqDecision String.
Proof. solve_decision. Defined.

End types.

(** ** Diagnostics *)

Module diag.

Inductive Severity := SeverityError | SeverityWarning.

Record Diagnostic := mkDiagnostic {
  severity : Severity;
  Summary : string;
  Detail : string
}.

Definition Diagnostics := list Diagnostic.

#[global] Instance Severity_eq_dec : EqDecision Severity.
Proof. solve_decision. Defined.

#[global] Instance Diagnostic_eq_dec : EqDecision Diagnostic.
Proof. solve_decision. Defined.

Definition NewErrorDiagnostic (summary detail : string) : Diagnostic :=
  {| severity := SeverityError; Summary := summary; Detail := detail |}.

Definition is_error (d : Diagnostic) : bool :=
  match severity d with SeverityError => true | SeverityWarning => false end.

Definition HasError (diags : Diagnostics) : bool := existsb is_error diags.

Definition Contains (diags : Diagnostics) (d : Diagnostic) : bool :=
  existsb (fun d' => bool_decide (d' = d)) diags.

(** [Append] skips a diagnostic that the collection already holds. *)
Fixpoint Append (diags : Diagnostics) (new : list Diagnostic) : Diagnostics :=
  match new with
  | [] => diags
  | d :: rest =>
      if Contains diags d then Append diags rest
      else Append (diags ++ [d]) rest
  end.

Definition AddError (diags : Diagnostics) (summary detail : string) : Diagnostics :=
  Append diags [NewErrorDiagnostic summary detail].

End diag.

(** ** The resource model and the records of the generated client *)

Record TeamLabelResourceModel := mkModel {
  Id : types.String;
  Name : types.String;
  Description : types.String;
  Color : types.String;
  TeamId : types.String
}.

#[global] Instance TeamLabelResourceModel_eq_dec : EqDecision TeamLabelResourceModel.
Proof. solve_decision. Defined.

(** Go's [error], by its text. *)
Definition error := string.

(** The generated client ([createLabel], [getLabel], ...) and its types are
    not part of the file; their shape is read off the way the source uses
    them.  A [*string] is an [option string]. *)
Record IssueLabelCreateInput := mkCreateInput {
  ci_Name : string;
  ci_TeamId : option string;
  ci_Description : option string;
  ci_Color : option string
}.

Record IssueLabelUpdateInput := mkUpdateInput {
  ui_Name : string;
  ui_Description : option string;
  ui_Color : option string
}.

Record TeamRef := mkTeamRef { Team_Id : string }.

(** The label as the server returns it. *)
Record Label := mkLabel {
  Label_Id : string;
  Label_Name : string;
  Label_Description : option string;
  Label_Color : option string;
  Label_Team : option TeamRef
}.

Record LabelPayload := mkPayload { Payload_IssueLabel : Label }.
Record createLabelResponse := mkCreateResponse { IssueLabelCreate : LabelPayload }.
Record getLabelResponse := mkGetResponse { IssueLabel : Label }.
Record updateLabelResponse := mkUpdateResponse { IssueLabelUpdate : LabelPayload }.
Record LabelNode := mkNode { Node_Id : string }.
Record LabelConnection := mkConnection { Nodes : list LabelNode }.
Record findTeamLabelResponse := mkFindResponse { IssueLabels : LabelConnection }.

#[global] Instance IssueLabelCreateInput_eq_dec : EqDecision IssueLabelCreateInput.
Proof. solve_decision. Defined.
#[global] Instance IssueLabelUpdateInput_eq_dec : EqDecision IssueLabelUpdateInput.
Proof. solve_decision. Defined.

(** ** Remote calls and programs *)

Inductive Call :=
| createLabel (input : IssueLabelCreateInput)
| getLabel (id : string)
| updateLabel (input : IssueLabelUpdateInput) (id : string)
| deleteLabel (id : string)
| findTeamLabel (name key : string).

#[global] Instance Call_eq_dec : EqDecision Call.
Proof. solve_decision. Defined.

Definition ResponseOf (c : Call) : Type :=
  match c with
  | createLabel _ => createLabelResponse
  | getLabel _ => getLabelResponse
  | updateLabel _ _ => updateLabelResponse
  | deleteLabel _ => unit
  | findTeamLabel _ _ => findTeamLabelResponse
  end.

(** What a generated operation returns: the response, or an error. *)
Definition Reply (c : Call) : Type := (ResponseOf c + error)%type.

(** A program either returns, panics (a nil dereference), or performs a
    remote call and continues with its reply. *)
Inductive Prog (A : Type) : Type :=
| Ret (a : A)
| Panic
| Do (c : Call) (k : Reply c -> Prog A).

Arguments Ret {A} a.
Arguments Panic {A}.
Arguments Do {A} c k.

(** One entry of the log: the call and the reply it got. *)
Record Exchange := mkExchange {
  ex_call : Call;
  ex_reply : Reply ex_call
}.

Definition error_of {R : Type} (r : R + error) : option error :=
  match r with inl _ => None | inr e => Some e end.

(** The error an exchange ended with, if it did. *)
Definition ex_error (e : Exchange) : option error := error_of (ex_reply e).

Record Outcome (W A : Type) := mkOutcome {
  result : option A;
  world : W;
  log : list Exchange
}.

Arguments mkOutcome {W A} result world log.
Arguments result {W A} o.
Arguments world {W A} o.
Arguments log {W A} o.

Definition Server (W : Type) : Type := forall c : Call, W -> Reply c * W.

Fixpoint run {W A : Type} (server : Server W) (p : Prog A) (w : W) : Outcome W A :=
  match p with
  | Ret a => mkOutcome (Some a) w []
  | Panic => mkOutcome None w []
  | Do c k =>
      let '(r, w') := server c w in
      let o := run server (k r) w' in
      mkOutcome (result o) (world o) (mkExchange c r :: log o)
  end.

Definition calls {W A : Type} (o : Outcome W A) : list Call := map ex_call (log o).

(** ** The host's containers: [tfsdk.Plan] and [tfsdk.State]

    The resource reads its model out of a plan or a state with [Get] and
    writes it back with [Set].  The containers belong to the host
    framework; they are modelled by the model value they hold, [None]
    being the null object, which [Get] turns into a nil pointer. *)

Module tfsdk.

Record Plan := mkPlan { Plan_Raw : option TeamLabelResourceModel }.
Record State := mkState { State_Raw : option TeamLabelResourceModel }.

Definition Plan_Get (p : Plan) : diag.Diagnostics * option TeamLabelResourceModel :=
  ([], Plan_Raw p).

Definition State_Get (s : State) : diag.Diagnostics * option TeamLabelResourceModel :=
  ([], State_Raw s).

Definition State_Set (s : State) (data : TeamLabelResourceModel)
  : diag.Diagnostics * State :=
  ([], mkState (Some data)).

(** The object whose attributes are all null. *)
Definition NullObject : TeamLabelResourceModel :=
  mkModel types.NullValue types.NullValue types.NullValue
          types.NullValue types.NullValue.

(** [SetAttribute] at a root path, with a Go string as the value: the
    attribute becomes a known string, the others are kept (null when the
    state held no object yet).  The attribute names are the [tfsdk] tags
    of the model's fields; a root that names none of them is an error,
    whose wording stands for the framework's. *)
Definition State_SetAttribute (s : State) (root : string) (v : string)
  : diag.Diagnostics * State :=
  let m := match State_Raw s with Some m => m | None => NullObject end in
  let known := types.OfValue v in
  if bool_decide (root = "id") then
    ([], mkState (Some (mkModel known (Name m) (Description m) (Color m) (TeamId m))))
  else if bool_decide (root = "name") then
    ([], mkState (Some (mkModel (Id m) known (Description m) (Color m) (TeamId m))))
  else if bool_decide (root = "description") then
    ([], mkState (Some (mkModel (Id m) (Name m) known (Color m) (TeamId m))))
  else if bool_decide (root = "color") then
    ([], mkState (Some (mkModel (Id m) (Name m) (Description m) known (TeamId m))))
  else if bool_decide (root = "team_id") then
    ([], mkState (Some (mkModel (Id m) (Name m) (Description m) (Color m) known)))
  else
    ([diag.NewErrorDiagnostic "State Write Error" ("no such attribute: " +:+ root)], s).

End tfsdk.

(** ** Requests and responses of the resource contract *)

Module resource.

Record CreateRequest := mkCreateRequest { create_Plan : tfsdk.Plan }.
Record ReadRequest := mkReadRequest { read_State : tfsdk.State }.
Record UpdateRequest := mkUpdateRequest {
  update_Plan : tfsdk.Plan;
  update_State : tfsdk.State
}.
Record DeleteRequest := mkDeleteRequest { delete_State : tfsdk.State }.
Record ImportStateRequest := mkImportStateRequest { ID : string }.

(** The five response structs ([CreateResponse], [ReadResponse],
    [UpdateResponse], [DeleteResponse], [ImportStateResponse]) carry the
    same two fields the source touches. *)
Record Response := mkResponse {
  State : tfsdk.State;
  Diagnostics : diag.Diagnostics
}.

End resource.

Import resource.

(** Field updates, as the assignments of the source. *)
Definition set_Id (d : TeamLabelResourceModel) (v : types.String) :=
  mkModel v (Name d) (Description d) (Color d) (TeamId d).
Definition set_Name (d : TeamLabelResourceModel) (v : types.String) :=
  mkModel (Id d) v (Description d) (Color d) (TeamId d).
Definition set_Description (d : TeamLabelResourceModel) (v : types.String) :=
  mkModel (Id d) (Name d) v (Color d) (TeamId d).
Definition set_Color (d : TeamLabelResourceModel) (v : types.String) :=
  mkModel (Id d) (Name d) (Description d) v (TeamId d).
Definition set_TeamId (d : TeamLabelResourceModel) (v : types.String) :=
  mkModel (Id d) (Name d) (Description d) (Color d) v.

Definition set_Diagnostics (r : Response) (ds : diag.Diagnostics) : Response :=
  mkResponse (State r) ds.

(** ** [strings.Split]

    Go's [strings.Split s sep] for a non-empty separator: the pieces of [s]
    between consecutive occurrences of [sep], scanned from the left, one
    more piece than there are occurrences.  [skip] counts the bytes of a
    separator still to be passed over; [piece] is the piece being read. *)

Module strings.

Fixpoint split_from (sep : string) (skip : nat) (piece : string) (s : string)
  : list string :=
  match s with
  | EmptyString => [piece]
  | String c s' =>
      match skip with
      | S n => split_from sep n piece s'
      | O =>
          if String.prefix sep s
          then piece :: split_from sep (String.length sep - 1) "" s'
          else split_from sep 0 (piece +:+ String c "") s'
      end
  end.

(** With an empty separator Go splits after every UTF-8 sequence, a byte
    that starts no valid sequence being a piece of its own.  [rune_size]
    is the width [utf8.DecodeRuneInString] reports at the head of a
    string: the first byte fixes the length of the sequence and the range
    of the second byte, the later bytes are continuation bytes, and
    whatever falls short of that has width one. *)
Definition in_range (lo hi n : nat) : bool := Nat.leb lo n && Nat.leb n hi.

Definition continuation (c : ascii) : bool := in_range 128 191 (nat_of_ascii c).

(** Length of the sequence a first byte announces, with the range its
    second byte must lie in; [(1, 0, 0)] for a byte that starts none. *)
Definition first_byte (b : nat) : nat * nat * nat :=
  if in_range 194 223 b then (2, 128, 191)
  else if Nat.eqb b 224 then (3, 160, 191)
  else if in_range 225 236 b then (3, 128, 191)
  else if Nat.eqb b 237 then (3, 128, 159)
  else if in_range 238 239 b then (3, 128, 191)
  else if Nat.eqb b 240 then (4, 144, 191)
  else if in_range 241 243 b then (4, 128, 191)
  else if Nat.eqb b 244 then (4, 128, 143)
  else (1, 0, 0).

Definition rune_size (s : string) : nat :=
  match s with
  | EmptyString => 0
  | String c0 s1 =>
      if Nat.ltb (nat_of_ascii c0) 128 then 1 else
      let '(sz, lo, hi) := first_byte (nat_of_ascii c0) in
      if Nat.eqb sz 1 then 1 else
      match s1 with
      | EmptyString => 1
      | String c1 s2 =>
          if negb (in_range lo hi (nat_of_ascii c1)) then 1
          else if Nat.eqb sz 2 then 2
          else
            match s2 with
            | EmptyString => 1
            | String c2 s3 =>
                if negb (continuation c2) then 1
                else if Nat.eqb sz 3 then 3
                else
                  match s3 with
                  | EmptyString => 1
                  | String c3 _ => if negb (continuation c3) then 1 else 4
                  end
            end
      end
  end.

(** [pending] counts the bytes the sequence being read still lacks;
    [piece] holds the bytes read of it. *)
Fixpoint explode_from (pending : nat) (piece : string) (s : string) : list string :=
  match s with
  | EmptyString =>
      match piece with
      | EmptyString => []
      | _ => [piece]
      end
  | String c s' =>
      match pending with
      | S O => (piece +:+ String c "") :: explode_from 0 "" s'
      | S n => explode_from n (piece +:+ String c "") s'
      | O =>
          match rune_size s with
          | S (S k) => explode_from (S k) (String c "") s'
          | _ => String c "" :: explode_from 0 "" s'
          end
      end
  end.

Definition explode (s : string) : list string := explode_from 0 "" s.

Definition Split (s sep : string) : list string :=
  match sep with
  | EmptyString => explode s
  | _ => split_from sep 0 "" s
  end.

End strings.

(** ** The resource (lines 26-28)

    [graphql.Client] is the client's own type and stays a parameter; the
    resource keeps a pointer to a client, nil until [Configure] has stored
    one.  Every operation dereferences that pointer where it passes the
    client to the generated call, and panics there when it is nil. *)
Record TeamLabelResource (Client : Type) := mkResource { client : option Client }.

Arguments mkResource {Client} client.
Arguments client {Client} t.

(** ** The operations *)

Section Operations.

(** [graphql.Client]. *)
Variable Client : Type.

(** [fmt.Sprintf("%q", s)]: the quoted form of a string.  Only its
    position in the message matters here. *)
Variable Quote : string -> string.

(** Lines 118-167. *)
Definition Create (r : TeamLabelResource Client) (req : CreateRequest) (resp : Response)
  : Prog Response :=
  let '(diags, data) := tfsdk.Plan_Get (create_Plan req) in
  let resp := set_Diagnostics resp (diag.Append (Diagnostics resp) diags) in
  if diag.HasError (Diagnostics resp) then Ret resp else
  match data with
  | None => Panic
  | Some data =>
      let input :=
        {| ci_Name := types.Value (Name data);
           ci_TeamId := Some (types.Value (TeamId data));
           ci_Description := None;
           ci_Color := None |} in
      let input :=
        if negb (types.IsNull (Description data))
        then mkCreateInput (ci_Name input) (ci_TeamId input)
               (Some (types.Value (Description data))) (ci_Color input)
        else input in
      let input :=
        if negb (types.IsUnknown (Color data))
        then mkCreateInput (ci_Name input) (ci_TeamId input)
               (ci_Description input) (Some (types.Value (Color data)))
        else input in
      match client r with (* [*r.client] *)
      | None => Panic
      | Some _ =>
      Do (createLabel input) (fun reply =>
        match reply with
        | inr err =>
            Ret (set_Diagnostics resp
                   (diag.AddError (Diagnostics resp) "Client Error"
                      ("Unable to create team label, got error: " +:+ err)))
        | inl response =>
            let issueLabel := Payload_IssueLabel (IssueLabelCreate response) in
            let data := set_Id data (types.OfValue (Label_Id issueLabel)) in
            let data := set_Name data (types.OfValue (Label_Name issueLabel)) in
            let data :=
              match Label_Description issueLabel with
              | Some v => set_Description data (types.OfValue v)
              | None => data
              end in
            let data :=
              match Label_Color issueLabel with
              | Some v => set_Color data (types.OfValue v)
              | None => data
              end in
            let data :=
              match Label_Team issueLabel with
              | Some team => set_TeamId data (types.OfValue (Team_Id team))
              | None => data
              end in
            let '(diags, st) := tfsdk.State_Set (State resp) data in
            Ret (mkResponse st (diag.Append (Diagnostics resp) diags))
        end)
      end
  end.

(** Lines 169-203. *)
Definition Read (r : TeamLabelResource Client) (req : ReadRequest) (resp : Response)
  : Prog Response :=
  let '(diags, data) := tfsdk.State_Get (read_State req) in
  let resp := set_Diagnostics resp (diag.Append (Diagnostics resp) diags) in
  if diag.HasError (Diagnostics resp) then Ret resp else
  match data with
  | None => Panic
  | Some data =>
      match client r with (* [*r.client] *)
      | None => Panic
      | Some _ =>
      Do (getLabel (types.Value (Id data))) (fun reply =>
        match reply with
        | inr err =>
            Ret (set_Diagnostics resp
                   (diag.AddError (Diagnostics resp) "Client Error"
                      ("Unable to read team label, got error: " +:+ err)))
        | inl response =>
            let issueLabel := IssueLabel response in
            let data := set_Id data (types.OfValue (Label_Id issueLabel)) in
            let data := set_Name data (types.OfValue (Label_Name issueLabel)) in
            let data :=
              match Label_Description issueLabel with
              | Some v => set_Description data (types.OfValue v)
              | None => data
              end in
            let data :=
              match Label_Color issueLabel with
              | Some v => set_Color data (types.OfValue v)
              | None => data
              end in
            let data :=
              match Label_Team issueLabel with
              | Some team => set_TeamId data (types.OfValue (Team_Id team))
              | None => data
              end in
            let '(diags, st) := tfsdk.State_Set (State resp) data in
            Ret (mkResponse st (diag.Append (Diagnostics resp) diags))
        end)
      end
  end.

(** Lines 205-253. *)
Definition Update (r : TeamLabelResource Client) (req : UpdateRequest) (resp : Response)
  : Prog Response :=
  let '(diags, data) := tfsdk.Plan_Get (update_Plan req) in
  let resp := set_Diagnostics resp (diag.Append (Diagnostics resp) diags) in
  if diag.HasError (Diagnostics resp) then Ret resp else
  match data with
  | None => Panic
  | Some data =>
      let input :=
        {| ui_Name := types.Value (Name data);
           ui_Description := None;
           ui_Color := None |} in
      let input :=
        if negb (types.IsNull (Description data))
        then mkUpdateInput (ui_Name input)
               (Some (types.Value (Description data))) (ui_Color input)
        else input in
      let input :=
        if negb (types.IsUnknown (Color data))
        then mkUpdateInput (ui_Name input) (ui_Description input)
               (Some (types.Value (Color data)))
        else input in
      match client r with (* [*r.client] *)
      | None => Panic
      | Some _ =>
      Do (updateLabel input (types.Value (Id data))) (fun reply =>
        match reply with
        | inr err =>
            Ret (set_Diagnostics resp
                   (diag.AddError (Diagnostics resp) "Client Error"
                      ("Unable to update team label, got error: " +:+ err)))
        | inl response =>
            let issueLabel := Payload_IssueLabel (IssueLabelUpdate response) in
            let data := set_Id data (types.OfValue (Label_Id issueLabel)) in
            let data := set_Name data (types.OfValue (Label_Name issueLabel)) in
            let data :=
              match Label_Description issueLabel with
              | Some v => set_Description data (types.OfValue v)
              | None => data
              end in
            let data :=
              match Label_Color issueLabel with
              | Some v => set_Color data (types.OfValue v)
              | None => data
              end in
            let data :=
              match Label_Team issueLabel with
              | Some team => set_TeamId data (types.OfValue (Team_Id team))
              | None => data
              end in
            let '(diags, st) := tfsdk.State_Set (State resp) data in
            Ret (mkResponse st (diag.Append (Diagnostics resp) diags))
        end)
      end
  end.

(** Lines 255-272. *)
Definition Delete (r : TeamLabelResource Client) (req : DeleteRequest) (resp : Response)
  : Prog Response :=
  let '(diags, data) := tfsdk.State_Get (delete_State req) in
  let resp := set_Diagnostics resp (diag.Append (Diagnostics resp) diags) in
  if diag.HasError (Diagnostics resp) then Ret resp else
  match data with
  | None => Panic
  | Some data =>
      match client r with (* [*r.client] *)
      | None => Panic
      | Some _ =>
      Do (deleteLabel (types.Value (Id data))) (fun reply =>
        match reply with
        | inr err =>
            Ret (set_Diagnostics resp
                   (diag.AddError (Diagnostics resp) "Client Error"
                      ("Unable to delete team label, got error: " +:+ err)))
        | inl _ => Ret resp
        end)
      end
  end.

(** Lines 274-299.  Go's [||] stops at the first true operand, so
    [parts[0]] and [parts[1]] are read only when there are two parts, and
    [Nodes[0]] only when there is one node; [nth] with a default is the
    same read. *)
Definition ImportState (r : TeamLabelResource Client) (req : ImportStateRequest)
    (resp : Response) : Prog Response :=
  let parts := strings.Split (ID req) ":" in
  if negb (Nat.eqb (length parts) 2)
     || bool_decide (nth 0 parts "" = "")
     || bool_decide (nth 1 parts "" = "")
  then
    Ret (set_Diagnostics resp
           (diag.AddError (Diagnostics resp) "Unexpected Import Identifier"
              ("Expected import identifier with format: label_name:team_key. Got: "
                 +:+ Quote (ID req))))
  else
    match client r with (* [*r.client] *)
    | None => Panic
    | Some _ =>
    Do (findTeamLabel (nth 0 parts "") (nth 1 parts "")) (fun reply =>
      match reply with
      | inr err =>
          Ret (set_Diagnostics resp
                 (diag.AddError (Diagnostics resp) "Client Error"
                    ("Unable to import team label, got error: " +:+ err)))
      | inl response =>
          if negb (Nat.eqb (length (Nodes (IssueLabels response))) 1) then
            Ret (set_Diagnostics resp
                   (diag.AddError (Diagnostics resp) "Client Error"
                      "Unable to import team label, got error: label not found"))
          else
            let '(diags, st) :=
              tfsdk.State_SetAttribute (State resp) "id"
                (Node_Id (nth 0 (Nodes (IssueLabels response)) (mkNode ""))) in
            Ret (mkResponse st (diag.Append (Diagnostics resp) diags))
      end)
    end.

End Operations.

Arguments Create {Client} r req resp.
Arguments Read {Client} r req resp.
Arguments Update {Client} r req resp.
Arguments Delete {Client} r req resp.
Arguments ImportState {Client} Quote r req resp.

(** The four operations that make one remote call each, under one type. *)
Inductive Operation :=
| OpCreate (req : CreateRequest)
| OpRead (req : ReadRequest)
| OpUpdate (req : UpdateRequest)
| OpDelete (req : DeleteRequest).

Definition perform {Client : Type} (r : TeamLabelResource Client)
    (op : Operation) (resp : Response) : Prog Response :=
  match op with
  | OpCreate req => Create r req resp
  | OpRead req => Read r req resp
  | OpUpdate req => Update r req resp
  | OpDelete req => Delete r req resp
  end.

(** The verb each operation puts in its error message. *)
Definition verb (op : Operation) : string :=
  match op with
  | OpCreate _ => "create"
  | OpRead _ => "read"
  | OpUpdate _ => "update"
  | OpDelete _ => "delete"
  end.

(** Which remote operation belongs to which operation of the resource. *)
Definition serves (op : Operation) (c : Call) : bool :=
  match op, c with
  | OpCreate _, createLabel _ => true
  | OpRead _, getLabel _ => true
  | OpUpdate _, updateLabel _ _ => true
  | OpDelete _, deleteLabel _ => true
  | _, _ => false
  end.

(** The model an operation starts from: the plan for [Create] and
    [Update], the prior state for [Read] and [Delete]. *)
Definition source_model (op : Operation) : option TeamLabelResourceModel :=
  match op with
  | OpCreate req => tfsdk.Plan_Raw (create_Plan req)
  | OpRead req => tfsdk.State_Raw (read_State req)
  | OpUpdate req => tfsdk.Plan_Raw (update_Plan req)
  | OpDelete req => tfsdk.State_Raw (delete_State req)
  end.

(** The label a logged exchange came back with, if it came back with one. *)
Definition returned_label (e : Exchange) : option Label :=
  match ex_call e as c return Reply c -> option Label with
  | createLabel _ => fun r =>
      match r with
      | inl x => Some (Payload_IssueLabel (IssueLabelCreate x))
      | inr _ => None
      end
  | getLabel _ => fun r =>
      match r with inl x => Some (IssueLabel x) | inr _ => None end
  | updateLabel _ _ => fun r =>
      match r with
      | inl x => Some (Payload_IssueLabel (IssueLabelUpdate x))
      | inr _ => None
      end
  | deleteLabel _ => fun _ => None
  | findTeamLabel _ _ => fun _ => None
  end (ex_reply e).

(** The block that copies a returned label into the model (lines 151-164,
    187-200 and 237-250, the same three times), in closed form: [id] and
    [name] are overwritten, the other three only by a value that is there. *)
Definition kept_or (returned : option string) (current : types.String) : types.String :=
  match returned with
  | Some v => types.OfValue v
  | None => current
  end.

Definition reconcile (data : TeamLabelResourceModel) (l : Label) : TeamLabelResourceModel :=
  {| Id := types.OfValue (Label_Id l);
     Name := types.OfValue (Label_Name l);
     Description := kept_or (Label_Description l) (Description data);
     Color := kept_or (Label_Color l) (Color data);
     TeamId := kept_or (option_map Team_Id (Label_Team l)) (TeamId data) |}.

(** ** The schema (lines 42-96) *)

Inductive PlanModifier := UseStateForUnknown | NullableString | RequiresReplace.

Inductive AttributeValidator :=
| MinLength (n : nat)
| Match (regex : string -> bool).

Record Attribute := mkAttribute {
  MarkdownDescription : string;
  Required : bool;
  Optional : bool;
  Computed : bool;
  PlanModifiers : list PlanModifier;
  Validators : list AttributeValidator
}.

Record Schema := mkSchema {
  Schema_MarkdownDescription : string;
  Attributes : gmap string Attribute
}.

Section SchemaOfTheResource.

(** [colorRegex()] and [uuidRegex()] are defined elsewhere in the
    package; a compiled pattern is taken by its match predicate. *)
Variables colorRegex uuidRegex : string -> bool.

Definition GetSchema : Schema * diag.Diagnostics :=
  ({| Schema_MarkdownDescription := "Linear team label.";
      Attributes := list_to_map [
        ("id",
          {| MarkdownDescription := "Identifier of the label.";
             Required := false; Optional := false; Computed := true;
             PlanModifiers := [UseStateForUnknown];
             Validators := [] |});
        ("name",
          {| MarkdownDescription := "Name of the label.";
             Required := true; Optional := false; Computed := false;
             PlanModifiers := [];
             Validators := [MinLength 1] |});
        ("description",
          {| MarkdownDescription := "Description of the label.";
             Required := false; Optional := true; Computed := true;
             PlanModifiers := [NullableString];
             Validators := [] |});
        ("color",
          {| MarkdownDescription := "Color of the label.";
             Required := false; Optional := true; Computed := true;
             PlanModifiers := [UseStateForUnknown];
             Validators := [Match colorRegex] |});
        ("team_id",
          {| MarkdownDescription := "Identifier of the team.";
             Required := true; Optional := false; Computed := false;
             PlanModifiers := [RequiresReplace];
             Validators := [Match uuidRegex] |})
      ] |}, []).

End SchemaOfTheResource.

(** ** Schema validation by the host *)

(** The value a configuration gives to an attribute, by the [tfsdk] tags of
    [TeamLabelResourceModel] (lines 30-36). *)
Definition attribute_of (config : TeamLabelResourceModel) (name : string)
  : option types.String :=
  if bool_decide (name = "id") then Some (Id config)
  else if bool_decide (name = "name") then Some (Name config)
  else if bool_decide (name = "description") then Some (Description config)
  else if bool_decide (name = "color") then Some (Color config)
  else if bool_decide (name = "team_id") then Some (TeamId config)
  else None.

(** Modelled from the spec: the validators and the validation step are the
    host's and its utility library's, not this file's.  ("Color must match
    its validation pattern or schema validation rejects it before any
    remote call"; "name (required, non-empty)".)  A validator looks at a
    value only when it is set, that is neither null nor unknown. *)
Definition accepts (v : AttributeValidator) (x : types.String) : bool :=
  if types.IsUnknown x || types.IsNull x then true
  else match v with
       | MinLength n => Nat.leb n (String.length (types.Value x))
       | Match regex => regex (types.Value x)
       end.

(** Modelled from the spec: an attribute passes when all its validators
    accept the configured value. *)
Definition attribute_passes (config : TeamLabelResourceModel)
    (entry : string * Attribute) : bool :=
  match attribute_of config entry.1 with
  | Some x => forallb (fun v => accepts v x) (Validators entry.2)
  | None => true
  end.

(** Modelled from the spec: schema validation of a configuration. *)
Definition ValidateConfig (s : Schema) (config : TeamLabelResourceModel) : bool :=
  forallb (attribute_passes config) (map_to_list (Attributes s)).

(** What the host reports for a lifecycle step: the configuration was
    turned down by validation, or the operation ran. *)
Inductive Verdict :=
| Rejected
| Applied (resp : Response).

Fixpoint Prog_map {A B : Type} (f : A -> B) (p : Prog A) : Prog B :=
  match p with
  | Ret a => Ret (f a)
  | Panic => Panic
  | Do c k => Do c (fun r => Prog_map f (k r))
  end.

Section Host.

Variables colorRegex uuidRegex : string -> bool.
Variable Client : Type.

(** Modelled from the spec: the host validates the configuration against
    the schema first, and runs the operation only when validation
    passed. *)
Definition host_apply (config : TeamLabelResourceModel)
    (r : TeamLabelResource Client) (op : Operation) (resp : Response)
  : Prog Verdict :=
  if ValidateConfig (GetSchema colorRegex uuidRegex).1 config
  then Prog_map Applied (perform r op resp)
  else Ret Rejected.

End Host.

Arguments host_apply colorRegex uuidRegex {Client} config r op resp.

(** ** Servers to run the operations against *)

(** A server that keeps the labels it was asked to create. *)
Module InMemory.

Record World := mkWorld {
  labels : gmap string Label;
  next : nat
}.

Definition empty : World := mkWorld ∅ 1.

Definition not_found : error := "Entity not found: IssueLabel".

(** The team a label belongs to, as the search compares it. *)
Definition team_of (l : Label) : string :=
  match Label_Team l with Some t => Team_Id t | None => "" end.

Definition server : Server World := fun c =>
  match c as c0 return World -> Reply c0 * World with
  | createLabel input => fun w =>
      let id := "label-" +:+ pretty (next w) in
      let l :=
        {| Label_Id := id;
           Label_Name := ci_Name input;
           Label_Description := ci_Description input;
           Label_Color :=
             match ci_Color input with
             | Some c => Some c
             | None => Some "#bec2c8"
             end;
           Label_Team := option_map mkTeamRef (ci_TeamId input) |} in
      (inl (mkCreateResponse (mkPayload l)),
       mkWorld (<[id := l]> (labels w)) (S (next w)))
  | getLabel id => fun w =>
      match labels w !! id with
      | Some l => (inl (mkGetResponse l), w)
      | None => (inr not_found, w)
      end
  | updateLabel input id => fun w =>
      match labels w !! id with
      | Some l =>
          let l' :=
            {| Label_Id := Label_Id l;
               Label_Name := ui_Name input;
               Label_Description :=
                 match ui_Description input with
                 | Some d => Some d
                 | None => Label_Description l
                 end;
               Label_Color :=
                 match ui_Color input with
                 | Some c => Some c
                 | None => Label_Color l
                 end;
               Label_Team := Label_Team l |} in
          (inl (mkUpdateResponse (mkPayload l')),
           mkWorld (<[id := l']> (labels w)) (next w))
      | None => (inr not_found, w)
      end
  | deleteLabel id => fun w =>
      match labels w !! id with
      | Some _ => (inl tt, mkWorld (delete id (labels w)) (next w))
      | None => (inr not_found, w)
      end
  | findTeamLabel name key => fun w =>
      let hits :=
        filter (fun l => bool_decide (Label_Name l = name)
                         && bool_decide (team_of l = key))
               (map snd (map_to_list (labels w))) in
      (inl (mkFindResponse (mkConnection (map (fun l => mkNode (Label_Id l)) hits))),
       w)
  end.

End InMemory.

(** A server that cannot be reached: every call comes back with an error. *)
Module Unreachable.

Definition refused : error := "connection refused".

Definition server : Server unit := fun c w => (inr refused, w).

End Unreachable.

(** A server that answers every call with one fixed label, and a search
    with a fixed list of nodes. *)
Module Canned.

Definition server (l : Label) (found : list LabelNode) : Server unit := fun c =>
  match c as c0 return unit -> Reply c0 * unit with
  | createLabel _ => fun w => (inl (mkCreateResponse (mkPayload l)), w)
  | getLabel _ => fun w => (inl (mkGetResponse l), w)
  | updateLabel _ _ => fun w => (inl (mkUpdateResponse (mkPayload l)), w)
  | deleteLabel _ => fun w => (inl tt, w)
  | findTeamLabel _ _ => fun w => (inl (mkFindResponse (mkConnection found)), w)
  end.

End Canned.

(** A colour pattern to try the schema with: a hash sign and six
    hexadecimal digits. *)
Module Sample.

Definition is_hex (c : ascii) : bool :=
  let n := Ascii.nat_of_ascii c in
  (Nat.leb 48 n && Nat.leb n 57)
  || (Nat.leb 65 n && Nat.leb n 70)
  || (Nat.leb 97 n && Nat.leb n 102).

Fixpoint all_hex (s : string) : bool :=
  match s with
  | EmptyString => true
  | String c s' => is_hex c && all_hex s'
  end.

Definition hex_color (s : string) : bool :=
  match s with
  | String "#"%char rest => Nat.eqb (String.length rest) 6 && all_hex rest
  | _ => false
  end.

Definition any_string (s : string) : bool := true.

(** A stand-in for the quoting of [%q]. *)
Definition quote (s : string) : string := "<" +:+ s +:+ ">".

End Sample.


(** Concrete requests and replies to run the operations on. *)
Module Scenario.

(** A plan for a new label: the identifier and the colour are still
    unknown, the description is given. *)
Definition plan : TeamLabelResourceModel :=
  {| Id := types.UnknownValue;
     Name := types.OfValue "bug";
     Description := types.OfValue "old text";
     Color := types.UnknownValue;
     TeamId := types.OfValue "team-1" |}.

Definition create_request : CreateRequest :=
  mkCreateRequest (tfsdk.mkPlan (Some plan)).

(** A resource that has been configured with a client. *)
Definition configured : TeamLabelResource unit := mkResource (Some tt).

(** The response as the host hands it over to [Create]: no state yet, no
    diagnostics. *)
Definition fresh : Response := mkResponse (tfsdk.mkState None) [].

Definition input : IssueLabelCreateInput :=
  {| ci_Name := "bug";
     ci_TeamId := Some "team-1";
     ci_Description := Some "old text";
     ci_Color := None |}.

(** What the in-memory server answers to [input] when it is empty. *)
Definition created : Label :=
  {| Label_Id := "label-1";
     Label_Name := "bug";
     Label_Description := Some "old text";
     Label_Color := Some "#bec2c8";
     Label_Team := Some (mkTeamRef "team-1") |}.

Definition create_exchange : Exchange :=
  mkExchange (createLabel input) (inl (mkCreateResponse (mkPayload created))).

(** The state [Create] leaves behind on the in-memory server. *)
Definition stored : TeamLabelResourceModel :=
  {| Id := types.OfValue "label-1";
     Name := types.OfValue "bug";
     Description := types.OfValue "old text";
     Color := types.OfValue "#bec2c8";
     TeamId := types.OfValue "team-1" |}.

Definition after_create : Response :=
  mkResponse (tfsdk.mkState (Some stored)) [].

(** The in-memory server once [Create] has run. *)
Definition populated : InMemory.World :=
  world (run InMemory.server (Create configured create_request fresh) InMemory.empty).

Definition import_request : ImportStateRequest := mkImportStateRequest "bug:team-1".

Definition search_exchange (nodes : list LabelNode) : Exchange :=
  mkExchange (findTeamLabel "bug" "team-1") (inl (mkFindResponse (mkConnection nodes))).

(** A label that comes back without description. *)
Definition silent : Label :=
  {| Label_Id := "L1";
     Label_Name := "bug";
     Label_Description := None;
     Label_Color := Some "#ff0000";
     Label_Team := Some (mkTeamRef "team-1") |}.

End Scenario.

(** ** The claims as the specification words them

    Used only to show where the code departs from the wording. *)

(** The value a framework string shows: nothing when null or unknown. *)
Definition shown (s : types.String) : option string :=
  if types.IsNull s || types.IsUnknown s then None else Some (types.Value s).

(** Every field of the state equals the field of the response. *)
Definition matches_response (st : TeamLabelResourceModel) (l : Label) : Prop :=
  Id st = types.OfValue (Label_Id l)
  /\ Name st = types.OfValue (Label_Name l)
  /\ shown (Description st) = Label_Description l
  /\ shown (Color st) = Label_Color l
  /\ shown (TeamId st) = option_map Team_Id (Label_Team l).

(** The diagnostic every failed remote call of [Read] ends in. *)
Definition generic_read_error (d : diag.Diagnostic) : Prop :=
  exists err : error,
    d = diag.NewErrorDiagnostic "Client Error"
          ("Unable to read team label, got error: " +:+ err).

(** No colon among the bytes of a string. *)
Fixpoint colon_free (s : string) : bool :=
  match s with
  | EmptyString => true
  | String c s' => negb (Ascii.eqb c ":"%char) && colon_free s'
  end.

(** Exactly two parts, neither of them empty. *)
Definition two_nonempty_parts (parts : list string) : Prop :=
  exists name key : string, parts = [name; key] /\ name <> "" /\ key <> "".

(** ** Diagnostics and log entries by name *)

(** The diagnostic of a malformed import identifier (lines 278-281). *)
Definition format_error (Quote : string -> string) (id : string) : diag.Diagnostic :=
  diag.NewErrorDiagnostic "Unexpected Import Identifier"
    ("Expected import identifier with format: label_name:team_key. Got: "
       +:+ Quote id).

(** The diagnostic of an import that did not find one label (line 294). *)
Definition not_found_error : diag.Diagnostic :=
  diag.NewErrorDiagnostic "Client Error"
    "Unable to import team label, got error: label not found".

(** The nodes a logged search came back with. *)
Definition found_nodes (e : Exchange) : option (list LabelNode) :=
  match ex_call e as c return Reply c -> option (list LabelNode) with
  | findTeamLabel _ _ => fun r =>
      match r with
      | inl x => Some (Nodes (IssueLabels x))
      | inr _ => None
      end
  | _ => fun _ => None
  end (ex_reply e).

(** ** Metadata and configuration of the resource (lines 19-40, 98-116) *)

(** [MetadataRequest] and [MetadataResponse], by the field the source
    reads and the field it writes. *)
Record MetadataRequest := mkMetadataRequest { ProviderTypeName : string }.
Record MetadataResponse := mkMetadataResponse { TypeName : string }.

(** Lines 38-40. *)
Definition Metadata (req : MetadataRequest) (resp : MetadataResponse)
  : MetadataResponse :=
  mkMetadataResponse (ProviderTypeName req +:+ "_team_label").

Section Configuration.

(** [graphql.Client]. *)
Variable Client : Type.

(** Lines 22-24: the pointer starts out nil. *)
Definition NewTeamLabelResource : TeamLabelResource Client := mkResource None.

(** [req.ProviderData] is an [any]: the nil interface, a [*graphql.Client]
    (itself possibly a nil pointer), or a value of another type, kept by
    the name the [%T] verb prints for it. *)
Inductive AnyValue :=
| NilInterface
| ClientPointer (p : option Client)
| OtherValue (type_name : string).

Record ConfigureRequest := mkConfigureRequest { ProviderData : AnyValue }.
Record ConfigureResponse := mkConfigureResponse {
  Configure_Diagnostics : diag.Diagnostics
}.

(** Lines 98-116: the receiver and the response, as they are afterwards. *)
Definition Configure (r : TeamLabelResource Client) (req : ConfigureRequest)
    (resp : ConfigureResponse) : TeamLabelResource Client * ConfigureResponse :=
  match ProviderData req with
  | NilInterface => (r, resp)
  | ClientPointer p => (mkResource p, resp)
  | OtherValue type_name =>
      (r,
       mkConfigureResponse
         (diag.AddError (Configure_Diagnostics resp)
            "Unexpected Resource Configure Type"
            ("Expected *graphql.Client, got: " +:+ type_name
               +:+ ". Please report this issue to the provider developers.")))
  end.

End Configuration.

Arguments NewTeamLabelResource {Client}.
Arguments NilInterface {Client}.
Arguments ClientPointer {Client} p.
Arguments OtherValue {Client} type_name.
Arguments mkConfigureRequest {Client} ProviderData.
Arguments ProviderData {Client} c.
Arguments Configure {Client} r req resp.

(** * Properties *)

(** ** Diagnostics *)

Lemma Append_nil (ds : diag.Diagnostics) : diag.Append ds [] = ds.
Proof. reflexivity. Qed.

Lemma Contains_error_free (ds : diag.Diagnostics) (d : diag.Diagnostic) :
  diag.HasError ds = false -> diag.is_error d = true -> diag.Contains ds d = false.
Proof.
  unfold diag.HasError, diag.Contains.
  induction ds as [|x ds IH]; cbn; intros Hno Hd; [reflexivity|].
  apply orb_false_iff in Hno as [Hx Hds].
  rewrite (IH Hds Hd), orb_false_r.
  apply bool_decide_eq_false. intros ->. congruence.
Qed.

Lemma AddError_error_free (ds : diag.Diagnostics) (summary detail : string) :
  diag.HasError ds = false ->
  diag.AddError ds summary detail = ds ++ [diag.NewErrorDiagnostic summary detail].
Proof.
  intros Hno. unfold diag.AddError. cbn.
  rewrite (Contains_error_free ds _ Hno); reflexivity.
Qed.

Lemma Contains_In (ds : diag.Diagnostics) (d : diag.Diagnostic) :
  diag.Contains ds d = true -> In d ds.
Proof.
  unfold diag.Contains. intros H.
  apply existsb_exists in H as (x & Hin & Hx).
  apply bool_decide_eq_true in Hx. now subst.
Qed.

Lemma AddError_In (ds : diag.Diagnostics) (summary detail : string) :
  In (diag.NewErrorDiagnostic summary detail) (diag.AddError ds summary detail).
Proof.
  unfold diag.AddError. cbn.
  destruct (diag.Contains ds _) eqn:E.
  - now apply Contains_In.
  - apply in_or_app. right. now left.
Qed.

Lemma HasError_In (ds : diag.Diagnostics) (d : diag.Diagnostic) :
  In d ds -> diag.is_error d = true -> diag.HasError ds = true.
Proof.
  intros Hin Hd. unfold diag.HasError. apply existsb_exists. eauto.
Qed.

(** ** Runs *)

(** A remote failure, whatever the operation: the failed exchange is the
    whole log, the response had no error before, and it gets one more
    diagnostic, the client error with the text of the failure. *)
Lemma perform_failure {Client W : Type}
    (rcv : TeamLabelResource Client) (server : Server W) (w : W)
    (op : Operation) (resp : Response) (e : Exchange) (err : error) :
  In e (log (run server (perform rcv op resp) w)) ->
  ex_error e = Some err ->
  log (run server (perform rcv op resp) w) = [e]
  /\ serves op (ex_call e) = true
  /\ diag.HasError (Diagnostics resp) = false
  /\ result (run server (perform rcv op resp) w)
     = Some (set_Diagnostics resp
               (Diagnostics resp ++
                  [diag.NewErrorDiagnostic "Client Error"
                     ("Unable to " +:+ verb op +:+ " team label, got error: " +:+ err)])).
Proof.
  destruct op as [[[data]]|[[data]]|[[data] prior]|[[data]]];
    cbn [perform verb];
    unfold Create, Read, Update, Delete;
    cbn [tfsdk.Plan_Get tfsdk.State_Get create_Plan read_State update_Plan
         delete_State tfsdk.Plan_Raw tfsdk.State_Raw];
    rewrite Append_nil;
    cbn [set_Diagnostics Diagnostics State];
    destruct (diag.HasError (Diagnostics resp)) eqn:Hno;
    try (cbn; intros []);
    (destruct data as [data|]; [|cbn; intros []]);
    (destruct rcv as [[cl|]]; cbn [client]; [|cbn; intros []]);
    cbn [run];
    match goal with |- context [server ?c w] => destruct (server c w) as [[ok|bad] w'] end;
    cbn [run log result world];
    intros Hin Herr;
    (destruct Hin as [<-|[]]);
    cbn in Herr; try discriminate;
    injection Herr as ->;
    (split; [reflexivity|split; [reflexivity|split; [reflexivity|]]]);
    rewrite (AddError_error_free _ _ _ Hno); reflexivity.
Qed.

(** A remote success that brought a label back: the exchange is the whole
    log, and the state written is the model the operation started from,
    reconciled with the label. *)
Lemma perform_success {Client W : Type}
    (rcv : TeamLabelResource Client) (server : Server W) (w : W)
    (op : Operation) (resp : Response) (e : Exchange) (l : Label) :
  In e (log (run server (perform rcv op resp) w)) ->
  returned_label e = Some l ->
  exists data,
    source_model op = Some data
    /\ log (run server (perform rcv op resp) w) = [e]
    /\ serves op (ex_call e) = true
    /\ diag.HasError (Diagnostics resp) = false
    /\ result (run server (perform rcv op resp) w)
       = Some (mkResponse (tfsdk.mkState (Some (reconcile data l))) (Diagnostics resp)).
Proof.
  destruct op as [[[data]]|[[data]]|[[data] prior]|[[data]]];
    cbn [perform source_model];
    unfold Create, Read, Update, Delete;
    cbn [tfsdk.Plan_Get tfsdk.State_Get create_Plan read_State update_Plan
         delete_State tfsdk.Plan_Raw tfsdk.State_Raw];
    rewrite Append_nil;
    cbn [set_Diagnostics Diagnostics State];
    destruct (diag.HasError (Diagnostics resp)) eqn:Hno;
    try (cbn; intros []);
    (destruct data as [data|]; [|cbn; intros []]);
    (destruct rcv as [[cl|]]; cbn [client]; [|cbn; intros []]);
    cbn [run];
    match goal with |- context [server ?c w] => destruct (server c w) as [[ok|bad] w'] end;
    cbn [run log result world];
    intros Hin Hl;
    (destruct Hin as [<-|[]]);
    cbn in Hl; try discriminate;
    injection Hl as <-;
    exists data;
    (split; [reflexivity|split; [reflexivity|split; [reflexivity|split; [reflexivity|]]]]);
    cbn [tfsdk.State_Set]; rewrite Append_nil;
    first [ destruct ok as [[[i n [d|] [c|] [t|]]]] | destruct ok as [[i n [d|] [c|] [t|]]] ];
    reflexivity.
Qed.

Lemma reconcile_idempotent (data : TeamLabelResourceModel) (l : Label) :
  reconcile (reconcile data l) l = reconcile data l.
Proof.
  destruct l as [i n [d|] [c|] [t|]]; reflexivity.
Qed.


(** ** State after a successful call *)

(** C1, as worded, fails: [Create] is answered with a label that has no
    description, and the state keeps the description of the plan, so the
    state does not equal the response field by field. *)
Lemma Create_keeps_plan_where_response_is_silent :
  let out := run (Canned.server Scenario.silent []) 
               (Create Scenario.configured Scenario.create_request Scenario.fresh) tt in
  map returned_label (log out) = [Some Scenario.silent]
  /\ exists r st,
       result out = Some r
       /\ diag.HasError (Diagnostics r) = false
       /\ tfsdk.State_Raw (State r) = Some st
       /\ Description st = types.OfValue "old text"
       /\ Label_Description Scenario.silent = None
       /\ ~ matches_response st Scenario.silent.
Proof.
  cbv zeta. split; [reflexivity|].
  eexists. eexists.
  split; [reflexivity|].
  split; [reflexivity|].
  split; [reflexivity|].
  split; [reflexivity|].
  split; [reflexivity|].
  intros (_ & _ & Hd & _). discriminate Hd.
Qed.

(** C1, amended: after a call that brought a label back (a successful
    [Create] or [Update], and [Read] as well), the state holds the
    identifier and the name of the response; description, colour and team
    identifier are those of the response where it carries one, and
    otherwise those the operation started from (the plan). *)
Theorem state_after_success {Client W : Type}
    (rcv : TeamLabelResource Client) (server : Server W) (w : W)
    (op : Operation) (resp : Response) (e : Exchange) (l : Label) :
  In e (log (run server (perform rcv op resp) w)) ->
  returned_label e = Some l ->
  exists data r st,
    source_model op = Some data
    /\ result (run server (perform rcv op resp) w) = Some r
    /\ tfsdk.State_Raw (State r) = Some st
    /\ Diagnostics r = Diagnostics resp
    /\ Id st = types.OfValue (Label_Id l)
    /\ Name st = types.OfValue (Label_Name l)
    /\ Description st
       = match Label_Description l with
         | Some v => types.OfValue v
         | None => Description data
         end
    /\ Color st
       = match Label_Color l with
         | Some v => types.OfValue v
         | None => Color data
         end
    /\ TeamId st
       = match Label_Team l with
         | Some team => types.OfValue (Team_Id team)
         | None => TeamId data
         end.
Proof.
  intros Hin Hl.
  destruct (perform_success rcv server w op resp e l Hin Hl)
    as (data & Hsrc & _ & _ & _ & Hres).
  exists data. eexists. eexists.
  split; [exact Hsrc|].
  split; [exact Hres|].
  split; [reflexivity|].
  split; [reflexivity|].
  destruct l as [i n [d|] [c|] [t|]]; cbn; repeat split; reflexivity.
Qed.

Lemma state_after_success_witness :
  In Scenario.create_exchange
     (log (run InMemory.server
             (perform Scenario.configured (OpCreate Scenario.create_request) Scenario.fresh)
             InMemory.empty))
  /\ returned_label Scenario.create_exchange = Some Scenario.created
  /\ exists data r st,
       source_model (OpCreate Scenario.create_request) = Some data
       /\ result (run InMemory.server
                    (perform Scenario.configured
                        (OpCreate Scenario.create_request) Scenario.fresh)
                    InMemory.empty) = Some r
       /\ tfsdk.State_Raw (State r) = Some st
       /\ Diagnostics r = Diagnostics Scenario.fresh
       /\ Id st = types.OfValue "label-1"
       /\ Name st = types.OfValue "bug"
       /\ Description st = types.OfValue "old text"
       /\ Color st = types.OfValue "#bec2c8"
       /\ TeamId st = types.OfValue "team-1".
Proof.
  split; [left; reflexivity|].
  split; [reflexivity|].
  apply (state_after_success Scenario.configured InMemory.server InMemory.empty
           (OpCreate Scenario.create_request) Scenario.fresh
           Scenario.create_exchange Scenario.created).
  - left; reflexivity.
  - reflexivity.
Defined.

(** ** Reading *)

(** With a client to call through, the one call of [Read] is [getLabel],
    with the identifier of the prior state. *)
Lemma Read_call {Client W : Type} (rcv : TeamLabelResource Client)
    (server : Server W) (w : W)
    (req : ReadRequest) (resp : Response) (data : TeamLabelResourceModel)
    (c : Client) :
  client rcv = Some c ->
  tfsdk.State_Raw (read_State req) = Some data ->
  diag.HasError (Diagnostics resp) = false ->
  calls (run server (Read rcv req resp) w) = [getLabel (types.Value (Id data))].
Proof.
  intros Hc Hdata Hno. unfold Read, tfsdk.State_Get. rewrite Hdata, Append_nil.
  cbn [set_Diagnostics Diagnostics]. rewrite Hno, Hc. cbn [run].
  destruct (server _ w) as [[ok|bad] w']; reflexivity.
Qed.

(** A call that [Read] was seen to make is that [getLabel]. *)
Lemma Read_logged_call {Client W : Type} (rcv : TeamLabelResource Client)
    (server : Server W) (w : W)
    (req : ReadRequest) (resp : Response) (data : TeamLabelResourceModel)
    (e : Exchange) :
  tfsdk.State_Raw (read_State req) = Some data ->
  In e (log (run server (Read rcv req resp) w)) ->
  ex_call e = getLabel (types.Value (Id data)).
Proof.
  intros Hdata. unfold Read, tfsdk.State_Get. rewrite Hdata, Append_nil.
  cbn [set_Diagnostics Diagnostics].
  destruct (diag.HasError (Diagnostics resp)); [cbn; intros []|].
  destruct rcv as [[cl|]]; cbn [client]; [|cbn; intros []].
  cbn [run]. destruct (server _ w) as [[ok|bad] w']; cbn [run log];
    intros [<-|[]]; reflexivity.
Qed.

(** C2, as worded, fails: the label is not on the server, and what [Read]
    reports is the client error of every failed remote call, with the same
    summary an unreachable server gives; no diagnostic of another kind is
    there to tell the two apart. *)
Lemma Read_reports_not_found_as_client_error :
  let req := mkReadRequest (tfsdk.mkState (Some Scenario.stored)) in
  let out := run InMemory.server (Read Scenario.configured
                                     req Scenario.after_create) InMemory.empty in
  let other := run Unreachable.server (Read Scenario.configured
                                          req Scenario.after_create) tt in
  map ex_error (log out) = [Some InMemory.not_found]
  /\ exists r r',
       result out = Some r
       /\ result other = Some r'
       /\ Diagnostics r
          = [diag.NewErrorDiagnostic "Client Error"
               "Unable to read team label, got error: Entity not found: IssueLabel"]
       /\ map diag.Summary (Diagnostics r) = map diag.Summary (Diagnostics r')
       /\ ~ (exists d, In d (Diagnostics r) /\ ~ generic_read_error d).
Proof.
  cbv zeta. split; [reflexivity|].
  eexists. eexists.
  split; [reflexivity|].
  split; [reflexivity|].
  split; [reflexivity|].
  split; [reflexivity|].
  intros (d & [<-|[]] & Hd). apply Hd.
  exists InMemory.not_found. reflexivity.
Qed.

(** C2, amended: a configured resource [Read]s the label by the identifier
    of the prior state, once; when the fetch fails, for a label that is
    not found as for any other reason, it reports the client error with
    the text of the failure and leaves the state alone. *)
Theorem Read_fetches_by_state_id {Client W : Type}
    (rcv : TeamLabelResource Client) (server : Server W) (w : W)
    (req : ReadRequest) (resp : Response) (data : TeamLabelResourceModel)
    (c : Client) :
  client rcv = Some c ->
  tfsdk.State_Raw (read_State req) = Some data ->
  diag.HasError (Diagnostics resp) = false ->
  calls (run server (Read rcv req resp) w) = [getLabel (types.Value (Id data))]
  /\ forall (e : Exchange) (err : error),
       In e (log (run server (Read rcv req resp) w)) ->
       ex_error e = Some err ->
       result (run server (Read rcv req resp) w)
       = Some (mkResponse (State resp)
                 (Diagnostics resp ++
                    [diag.NewErrorDiagnostic "Client Error"
                       ("Unable to read team label, got error: " +:+ err)])).
Proof.
  intros Hc Hdata Hno. split.
  - exact (Read_call rcv server w req resp data c Hc Hdata Hno).
  - intros e err Hin Herr.
    destruct (perform_failure rcv server w (OpRead req) resp e err Hin Herr)
      as (_ & _ & _ & Hres).
    exact Hres.
Qed.

Lemma Read_fetches_by_state_id_witness :
  client Scenario.configured = Some tt
  /\ tfsdk.State_Raw (read_State (mkReadRequest (tfsdk.mkState (Some Scenario.stored))))
  = Some Scenario.stored
  /\ diag.HasError (Diagnostics Scenario.after_create) = false
  /\ calls (run InMemory.server
             (Read Scenario.configured
                 (mkReadRequest (tfsdk.mkState (Some Scenario.stored)))
                Scenario.after_create)
             InMemory.empty)
     = [getLabel "label-1"].
Proof.
  split; [reflexivity|].
  split; [reflexivity|].
  split; [reflexivity|].
  apply (Read_fetches_by_state_id Scenario.configured InMemory.server InMemory.empty
           (mkReadRequest (tfsdk.mkState (Some Scenario.stored)))
           Scenario.after_create Scenario.stored tt); reflexivity.
Defined.

(** C3: [Create], then [Read] of the state [Create] wrote, against a server
    that answers the fetch with the label it answered the creation with:
    [Read] asks for that label and writes the very state [Create] wrote,
    without a diagnostic.  Nothing is asked of the plan. *)
Theorem Create_then_Read_same_state {Client W : Type}
    (rcv : TeamLabelResource Client) (server : Server W) (w : W)
    (req : CreateRequest) (resp r1 : Response) (e1 e2 : Exchange) (l : Label) :
  In e1 (log (run server (Create rcv req resp) w)) ->
  returned_label e1 = Some l ->
  result (run server (Create rcv req resp) w) = Some r1 ->
  In e2 (log (run server (Read rcv (mkReadRequest (State r1)) (mkResponse (State r1) []))
                (world (run server (Create rcv req resp) w)))) ->
  returned_label e2 = Some l ->
  ex_call e2 = getLabel (Label_Id l)
  /\ exists r2,
       result (run server (Read rcv (mkReadRequest (State r1)) (mkResponse (State r1) []))
                 (world (run server (Create rcv req resp) w))) = Some r2
       /\ State r2 = State r1
       /\ Diagnostics r2 = [].
Proof.
  intros Hin1 Hl1 Hr1 Hin2 Hl2.
  destruct (perform_success rcv server w (OpCreate req) resp e1 l Hin1 Hl1)
    as (data & _ & _ & _ & _ & Hres1).
  cbn [perform] in Hres1. rewrite Hres1 in Hr1. injection Hr1 as <-.
  cbn [State] in *.
  set (req2 := mkReadRequest (tfsdk.mkState (Some (reconcile data l)))) in *.
  set (resp2 := mkResponse (tfsdk.mkState (Some (reconcile data l))) []) in *.
  set (w1 := world (run server (Create rcv req resp) w)) in *.
  destruct (perform_success rcv server w1 (OpRead req2) resp2 e2 l Hin2 Hl2)
    as (data2 & Hsrc2 & Hlog2 & _ & _ & Hres2).
  cbn in Hsrc2. injection Hsrc2 as <-.
  cbn [perform] in Hres2, Hlog2.
  split.
  - exact (Read_logged_call rcv server w1 req2 resp2 (reconcile data l) e2
             eq_refl Hin2).
  - eexists. split; [exact Hres2|].
    cbn [State Diagnostics resp2]. rewrite reconcile_idempotent. split; reflexivity.
Qed.

Lemma Create_then_Read_same_state_witness :
  let e2 := mkExchange (getLabel "label-1") (inl (mkGetResponse Scenario.created)) in
  let out2 := run InMemory.server
                (Read Scenario.configured (mkReadRequest (State Scenario.after_create))
                   (mkResponse (State Scenario.after_create) []))
                (world (run InMemory.server
                          (Create Scenario.configured
                              Scenario.create_request Scenario.fresh)
                          InMemory.empty)) in
  In e2 (log out2)
  /\ ex_call e2 = getLabel (Label_Id Scenario.created)
  /\ exists r2,
       result out2 = Some r2
       /\ State r2 = State Scenario.after_create
       /\ Diagnostics r2 = [].
Proof.
  cbv zeta. split; [left; reflexivity|].
  apply (Create_then_Read_same_state Scenario.configured InMemory.server InMemory.empty
           Scenario.create_request Scenario.fresh Scenario.after_create
           Scenario.create_exchange
           (mkExchange (getLabel "label-1") (inl (mkGetResponse Scenario.created)))
           Scenario.created).
  - left; reflexivity.
  - reflexivity.
  - reflexivity.
  - left; reflexivity.
  - reflexivity.
Defined.

(** ** Import *)

Example Split_samples :
  strings.Split "bug:team" ":" = ["bug"; "team"]
  /\ strings.Split "bug" ":" = ["bug"]
  /\ strings.Split "" ":" = [""]
  /\ strings.Split ":team" ":" = [""; "team"]
  /\ strings.Split "bug:" ":" = ["bug"; ""]
  /\ strings.Split "a:b:c" ":" = ["a"; "b"; "c"]
  /\ strings.Split "a, b, c" ", " = ["a"; "b"; "c"]
  /\ strings.Split "abc" "" = ["a"; "b"; "c"].
Proof. repeat split; reflexivity. Qed.

(** The empty separator on text that is not ASCII: "h", e acute (two
    bytes), "l"; a byte that starts no sequence; a sequence cut short. *)
Example Split_by_sequence :
  let text (l : list nat) :=
    foldr (fun n s => String (ascii_of_nat n) s) EmptyString l in
  strings.Split (text [104; 195; 169; 108]) ""
  = [text [104]; text [195; 169]; text [108]]
  /\ strings.Split (text [255; 97]) "" = [text [255]; text [97]]
  /\ strings.Split (text [226; 130]) "" = [text [226]; text [130]]
  /\ strings.Split "" "" = [].
Proof. repeat split; reflexivity. Qed.

Lemma append_cons (x : ascii) (a b : string) :
  String x a +:+ b = String x (a +:+ b).
Proof. reflexivity. Qed.

Lemma append_assoc (a b c : string) : (a +:+ b) +:+ c = a +:+ (b +:+ c).
Proof.
  induction a as [|x a IH]; [reflexivity|].
  rewrite !append_cons, IH. reflexivity.
Qed.

Lemma append_empty_r (a : string) : a +:+ "" = a.
Proof.
  induction a as [|x a IH]; [reflexivity|].
  rewrite append_cons, IH. reflexivity.
Qed.

Lemma prefix_colon (c : ascii) (s : string) :
  String.prefix ":" (String c s) = Ascii.eqb c ":"%char.
Proof.
  change (String.prefix ":" (String c s))
    with (if Ascii.ascii_dec ":"%char c then String.prefix "" s else false).
  destruct (Ascii.ascii_dec ":"%char c) as [<-|Hne].
  - destruct s; reflexivity.
  - symmetry. apply Ascii.eqb_neq. congruence.
Qed.

Lemma colon_free_split (s piece : string) :
  colon_free s = true -> strings.split_from ":" 0 piece s = [piece +:+ s].
Proof.
  revert piece. induction s as [|c s IH]; intros piece Hfree.
  - cbn. now rewrite append_empty_r.
  - cbn in Hfree. apply andb_true_iff in Hfree as [Hc Hfree].
    apply negb_true_iff in Hc.
    cbn [strings.split_from]. rewrite prefix_colon, Hc.
    rewrite (IH _ Hfree), append_assoc. reflexivity.
Qed.

(** Splitting at colons, one step: either no colon is left and the rest
    closes the piece being read, or the text up to the first colon closes
    it and the splitting starts afresh behind that colon. *)
Lemma split_from_colon (s piece : string) :
  (colon_free s = true
   /\ strings.split_from ":" 0 piece s = [piece +:+ s])
  \/ (exists a rest,
        s = a +:+ ":" +:+ rest
        /\ colon_free a = true
        /\ strings.split_from ":" 0 piece s
           = (piece +:+ a) :: strings.split_from ":" 0 "" rest).
Proof.
  revert piece. induction s as [|c s IH]; intros piece.
  - left. split; [reflexivity|]. cbn. now rewrite append_empty_r.
  - cbn [strings.split_from]. rewrite prefix_colon.
    destruct (Ascii.eqb c ":"%char) eqn:Hc.
    + apply Ascii.eqb_eq in Hc as ->. right. exists "", s.
      split; [reflexivity|]. split; [reflexivity|].
      cbn. now rewrite append_empty_r.
    + destruct (IH (piece +:+ String c "")) as [[Hfree Hs]|(a & rest & -> & Hfree & Hs)].
      * left. split; [cbn; now rewrite Hc|].
        rewrite Hs, append_assoc. reflexivity.
      * right. exists (String c a), rest.
        split; [reflexivity|]. split; [cbn; now rewrite Hc|].
        rewrite Hs, append_assoc. reflexivity.
Qed.

(** Two non-empty parts come out exactly of a name and a key, both
    non-empty and without colon, with one colon between them: a missing
    colon, an empty name or key, and a second colon are all ruled out. *)
Lemma Split_two_nonempty_parts (id : string) :
  two_nonempty_parts (strings.Split id ":")
  <-> exists name key,
        id = name +:+ ":" +:+ key
        /\ name <> "" /\ key <> ""
        /\ colon_free name = true /\ colon_free key = true.
Proof.
  unfold strings.Split. split.
  - intros (name & key & Hparts & Hname & Hkey).
    destruct (split_from_colon id "") as [[_ Hs]|(a & rest & -> & Ha & Hs)].
    + rewrite Hs in Hparts. discriminate Hparts.
    + rewrite Hs in Hparts. change ("" +:+ a) with a in Hparts.
      injection Hparts as -> Hrest.
      destruct (split_from_colon rest "") as [[Hfree Hr]|(b & rest' & _ & _ & Hr)].
      * rewrite Hr in Hrest. change ("" +:+ rest) with rest in Hrest.
        injection Hrest as ->.
        exists name, key. auto.
      * rewrite Hr in Hrest. injection Hrest as _ Hnil.
        destruct (split_from_colon rest' "") as [[_ E]|(x & y & _ & _ & E)];
          rewrite E in Hnil; discriminate Hnil.
  - intros (name & key & -> & Hname & Hkey & Hfn & Hfk).
    exists name, key. split; [|auto].
    assert (Hgo : forall a piece,
               colon_free a = true ->
               strings.split_from ":" 0 piece (a +:+ ":" +:+ key)
               = [piece +:+ a; key]).
    { clear -Hfk. induction a as [|c a IH]; intros piece Hfa.
      - change ("" +:+ ":" +:+ key) with (String ":"%char key).
        cbn [strings.split_from]. rewrite prefix_colon.
        change (String.length ":" - 1) with 0.
        rewrite (colon_free_split key "" Hfk), append_empty_r. reflexivity.
      - cbn in Hfa. apply andb_true_iff in Hfa as [Hc Hfa].
        apply negb_true_iff in Hc.
        change (String c a +:+ ":" +:+ key) with (String c (a +:+ ":" +:+ key)).
        cbn [strings.split_from]. rewrite prefix_colon, Hc.
        rewrite (IH _ Hfa), append_assoc. reflexivity. }
    rewrite (Hgo name "" Hfn). reflexivity.
Qed.


Lemma parts_check (parts : list string) :
  negb (Nat.eqb (length parts) 2)
  || bool_decide (nth 0 parts "" = "")
  || bool_decide (nth 1 parts "" = "") = false
  <-> two_nonempty_parts parts.
Proof.
  split.
  - intros H.
    apply orb_false_iff in H as [H H1]. apply orb_false_iff in H as [Hlen H0].
    apply negb_false_iff, Nat.eqb_eq in Hlen.
    apply bool_decide_eq_false in H0, H1.
    destruct parts as [|a [|b [|c rest]]]; try discriminate Hlen.
    exists a, b. auto.
  - intros (a & b & -> & Ha & Hb). cbn.
    rewrite (bool_decide_eq_false_2 _ Ha), (bool_decide_eq_false_2 _ Hb).
    reflexivity.
Qed.

(** C4: [ImportState] ends in the format error without a remote call and
    without touching the state exactly when splitting the identifier at
    the colons does not give two non-empty parts; this holds for every
    resource, configured or not, since the check comes before the client
    is used.  A configured resource always returns. *)
Theorem ImportState_format_error_iff (Quote : string -> string) {Client W : Type}
    (rcv : TeamLabelResource Client)
    (server : Server W) (w : W) (req : ImportStateRequest) (resp : Response) :
  ((log (run server (ImportState Quote rcv req resp) w) = []
    /\ exists r,
         result (run server (ImportState Quote rcv req resp) w) = Some r
         /\ In (format_error Quote (ID req)) (Diagnostics r)
         /\ diag.HasError (Diagnostics r) = true
         /\ State r = State resp)
   <-> ~ two_nonempty_parts (strings.Split (ID req) ":"))
  /\ (client rcv <> None ->
      exists r, result (run server (ImportState Quote rcv req resp) w) = Some r).
Proof.
  unfold ImportState.
  destruct (negb (Nat.eqb (length (strings.Split (ID req) ":")) 2)
            || bool_decide (nth 0 (strings.Split (ID req) ":") "" = "")
            || bool_decide (nth 1 (strings.Split (ID req) ":") "" = "")) eqn:Hchk.
  - assert (Hbad : ~ two_nonempty_parts (strings.Split (ID req) ":")).
    { intros Hok. apply parts_check in Hok. congruence. }
    cbn [run result log]. split; [|eauto]. split; [intros _; exact Hbad|].
    intros _. split; [reflexivity|]. eexists. split; [reflexivity|].
    cbn [set_Diagnostics Diagnostics State].
    split; [apply AddError_In|]. split; [|reflexivity].
    apply (HasError_In _ (format_error Quote (ID req))); [apply AddError_In|reflexivity].
  - apply parts_check in Hchk.
    destruct rcv as [[cl|]]; cbn [client].
    + cbn [run].
      destruct (server _ w) as [[response|err] w'].
      * cbn [run result log].
        destruct (negb _); cbn [run result log].
        -- split; [|eauto]. split; [intros [Hlog _]; discriminate Hlog|tauto].
        -- destruct (tfsdk.State_SetAttribute _ _ _) as [ds st]. cbn [run result log].
           split; [|eauto]. split; [intros [Hlog _]; discriminate Hlog|tauto].
      * cbn [run result log].
        split; [|eauto]. split; [intros [Hlog _]; discriminate Hlog|tauto].
    + cbn [run result log]. split; [|intros H; now destruct H].
      split; [intros (_ & r & Hr & _); discriminate Hr|tauto].
Qed.

(** C5: when the search of [ImportState] came back with nodes, the
    identifier was well formed and the search was the only call, for its
    two parts; with a number of nodes other than one the response gets the
    not-found error and its state is untouched; with one node the state's
    [id] becomes that node's identifier and nothing else changes. *)
Theorem ImportState_by_match_count (Quote : string -> string) {Client W : Type}
    (rcv : TeamLabelResource Client)
    (server : Server W) (w : W) (req : ImportStateRequest) (resp : Response)
    (e : Exchange) (nodes : list LabelNode) :
  In e (log (run server (ImportState Quote rcv req resp) w)) ->
  found_nodes e = Some nodes ->
  (exists name key,
     strings.Split (ID req) ":" = [name; key] /\ name <> "" /\ key <> ""
     /\ ex_call e = findTeamLabel name key)
  /\ log (run server (ImportState Quote rcv req resp) w) = [e]
  /\ (length nodes <> 1 ->
      exists r,
        result (run server (ImportState Quote rcv req resp) w) = Some r
        /\ State r = State resp
        /\ Diagnostics r = diag.AddError (Diagnostics resp)
                             (diag.Summary not_found_error) (diag.Detail not_found_error)
        /\ In not_found_error (Diagnostics r)
        /\ diag.HasError (Diagnostics r) = true)
  /\ (forall node : LabelNode, nodes = [node] ->
      exists r st,
        result (run server (ImportState Quote rcv req resp) w) = Some r
        /\ Diagnostics r = Diagnostics resp
        /\ tfsdk.State_Raw (State r) = Some st
        /\ Id st = types.OfValue (Node_Id node)
        /\ forall prior, tfsdk.State_Raw (State resp) = Some prior ->
             st = set_Id prior (types.OfValue (Node_Id node))).
Proof.
  unfold ImportState.
  destruct (negb (Nat.eqb (length (strings.Split (ID req) ":")) 2)
            || bool_decide (nth 0 (strings.Split (ID req) ":") "" = "")
            || bool_decide (nth 1 (strings.Split (ID req) ":") "" = "")) eqn:Hchk;
    [cbn; intros []|].
  apply parts_check in Hchk. destruct Hchk as (name & key & Hparts & Hname & Hkey).
  rewrite Hparts. cbn [nth].
  destruct rcv as [[cl|]]; cbn [client]; [|cbn; intros []].
  cbn [run].
  destruct (server _ w) as [[response|err] w'].
  - cbn [run log].
    destruct (negb (Nat.eqb (length (Nodes (IssueLabels response))) 1)) eqn:Hone;
      cbn [run log result].
    + intros [<-|[]] Hn. cbn in Hn. injection Hn as <-.
      split; [exists name, key; auto|]. split; [reflexivity|]. split.
      * intros _. eexists. split; [reflexivity|].
        cbn [set_Diagnostics State Diagnostics]. split; [reflexivity|].
        split; [reflexivity|]. split; [apply AddError_In|].
        apply (HasError_In _ not_found_error); [apply AddError_In|reflexivity].
      * intros node Hnode. rewrite Hnode in Hone. discriminate Hone.
    + apply negb_false_iff, Nat.eqb_eq in Hone.
      intros [<-|[]] Hn. cbn in Hn. injection Hn as <-.
      split; [exists name, key; auto|]. split; [reflexivity|]. split.
      * intros Hnot. contradiction.
      * intros node Hnode. rewrite Hnode. cbn.
        eexists. eexists. split; [reflexivity|].
        cbn. split; [reflexivity|]. split; [reflexivity|]. split; [reflexivity|].
        intros prior ->. reflexivity.
  - cbn [run log]. intros [<-|[]] Hn. cbn in Hn. discriminate Hn.
Qed.

Lemma ImportState_by_match_count_witness :
  let none := run InMemory.server
                (ImportState Sample.quote Scenario.configured
                    Scenario.import_request Scenario.fresh)
                InMemory.empty in
  let one := run InMemory.server
               (ImportState Sample.quote Scenario.configured
                   Scenario.import_request Scenario.fresh)
               Scenario.populated in
  (In (Scenario.search_exchange []) (log none)
   /\ found_nodes (Scenario.search_exchange []) = Some []
   /\ exists r,
        result none = Some r
        /\ State r = State Scenario.fresh
        /\ Diagnostics r = [not_found_error])
  /\ (In (Scenario.search_exchange [mkNode "label-1"]) (log one)
      /\ found_nodes (Scenario.search_exchange [mkNode "label-1"])
         = Some [mkNode "label-1"]
      /\ exists r st,
           result one = Some r
           /\ tfsdk.State_Raw (State r) = Some st
           /\ Id st = types.OfValue "label-1").
Proof.
  cbv zeta. split.
  - split; [left; reflexivity|]. split; [reflexivity|].
    destruct (ImportState_by_match_count Sample.quote Scenario.configured
                 InMemory.server InMemory.empty
                Scenario.import_request Scenario.fresh
                (Scenario.search_exchange []) []
                (or_introl eq_refl) eq_refl)
      as (_ & _ & Hnone & _).
    destruct (Hnone ltac:(discriminate)) as (r & Hr & Hst & Hds & _).
    exists r. split; [exact Hr|]. split; [exact Hst|]. exact Hds.
  - split; [left; reflexivity|]. split; [reflexivity|].
    destruct (ImportState_by_match_count Sample.quote Scenario.configured
                 InMemory.server Scenario.populated
                Scenario.import_request Scenario.fresh
                (Scenario.search_exchange [mkNode "label-1"]) [mkNode "label-1"]
                (or_introl eq_refl) eq_refl)
      as (_ & _ & _ & Hone).
    destruct (Hone (mkNode "label-1") eq_refl) as (r & st & Hr & _ & Hst & Hid & _).
    exists r, st. split; [exact Hr|]. split; [exact Hst|]. exact Hid.
Defined.

(** ** Remote failures *)

(** C6: when the remote call of [Create], [Read], [Update] or [Delete]
    comes back with an error, that call is the only one made and it is the
    operation's own; the response, free of errors until then, gets exactly
    one more diagnostic: the error with summary "Client Error" whose detail
    ends in the text of the failure. *)
Theorem remote_error_one_client_error {Client W : Type}
    (rcv : TeamLabelResource Client) (server : Server W) (w : W)
    (op : Operation) (resp : Response) (e : Exchange) (err : error) :
  In e (log (run server (perform rcv op resp) w)) ->
  ex_error e = Some err ->
  calls (run server (perform rcv op resp) w) = [ex_call e]
  /\ serves op (ex_call e) = true
  /\ diag.HasError (Diagnostics resp) = false
  /\ exists r d,
       result (run server (perform rcv op resp) w) = Some r
       /\ Diagnostics r = Diagnostics resp ++ [d]
       /\ List.filter diag.is_error (Diagnostics r) = [d]
       /\ d = diag.NewErrorDiagnostic "Client Error"
               ("Unable to " +:+ verb op +:+ " team label, got error: " +:+ err).
Proof.
  intros Hin Herr.
  destruct (perform_failure rcv server w op resp e err Hin Herr)
    as (Hlog & Hserves & Hno & Hres).
  split; [unfold calls; rewrite Hlog; reflexivity|].
  split; [exact Hserves|]. split; [exact Hno|].
  eexists. eexists. split; [exact Hres|].
  split; [reflexivity|]. split; [|reflexivity].
  cbn [set_Diagnostics Diagnostics].
  rewrite List.filter_app.
  assert (Hnone : List.filter diag.is_error (Diagnostics resp) = []).
  { clear -Hno. unfold diag.HasError in Hno.
    induction (Diagnostics resp) as [|x ds IH]; [reflexivity|].
    cbn in Hno. apply orb_false_iff in Hno as [Hx Hds].
    cbn. rewrite Hx. exact (IH Hds). }
  rewrite Hnone. reflexivity.
Qed.

Lemma remote_error_one_client_error_witness :
  let op := OpDelete (mkDeleteRequest (tfsdk.mkState (Some Scenario.stored))) in
  let e := mkExchange (deleteLabel "label-1") (inr Unreachable.refused) in
  In e (log (run Unreachable.server (perform Scenario.configured
                                        op Scenario.after_create) tt))
  /\ ex_error e = Some Unreachable.refused
  /\ calls (run Unreachable.server (perform Scenario.configured
                                       op Scenario.after_create) tt)
     = [deleteLabel "label-1"]
  /\ exists r d,
       result (run Unreachable.server (perform Scenario.configured
                                          op Scenario.after_create) tt) = Some r
       /\ Diagnostics r = Diagnostics Scenario.after_create ++ [d]
       /\ List.filter diag.is_error (Diagnostics r) = [d]
       /\ d = diag.NewErrorDiagnostic "Client Error"
               "Unable to delete team label, got error: connection refused".
Proof.
  cbv zeta. split; [left; reflexivity|]. split; [reflexivity|].
  destruct (remote_error_one_client_error Scenario.configured Unreachable.server tt
              (OpDelete (mkDeleteRequest (tfsdk.mkState (Some Scenario.stored))))
              Scenario.after_create
              (mkExchange (deleteLabel "label-1") (inr Unreachable.refused))
              Unreachable.refused (or_introl eq_refl) eq_refl)
    as (Hcalls & _ & _ & Hres).
  split; [exact Hcalls|]. exact Hres.
Defined.

(** C9: when the remote call of [Create], [Read] or [Update] (or
    [Delete]) comes back with an error, the operation returns with the
    state of the response as it was handed in. *)
Theorem remote_error_state_untouched {Client W : Type}
    (rcv : TeamLabelResource Client) (server : Server W) (w : W)
    (op : Operation) (resp : Response) (e : Exchange) (err : error) :
  In e (log (run server (perform rcv op resp) w)) ->
  ex_error e = Some err ->
  exists r,
    result (run server (perform rcv op resp) w) = Some r
    /\ State r = State resp.
Proof.
  intros Hin Herr.
  destruct (perform_failure rcv server w op resp e err Hin Herr) as (_ & _ & _ & Hres).
  eexists. split; [exact Hres|]. reflexivity.
Qed.

Lemma remote_error_state_untouched_witness :
  let op := OpUpdate (mkUpdateRequest (tfsdk.mkPlan (Some Scenario.stored))
                        (tfsdk.mkState (Some Scenario.stored))) in
  let e := mkExchange
             (updateLabel (mkUpdateInput "bug" (Some "old text") (Some "#bec2c8"))
                "label-1")
             (inr InMemory.not_found) in
  In e (log (run InMemory.server (perform Scenario.configured
                                     op Scenario.after_create) InMemory.empty))
  /\ ex_error e = Some InMemory.not_found
  /\ exists r,
       result (run InMemory.server (perform Scenario.configured
                                       op Scenario.after_create) InMemory.empty)
       = Some r
       /\ State r = tfsdk.mkState (Some Scenario.stored).
Proof.
  cbv zeta. split; [left; reflexivity|]. split; [reflexivity|].
  apply (remote_error_state_untouched Scenario.configured InMemory.server InMemory.empty
           (OpUpdate (mkUpdateRequest (tfsdk.mkPlan (Some Scenario.stored))
                        (tfsdk.mkState (Some Scenario.stored))))
           Scenario.after_create
           (mkExchange
              (updateLabel (mkUpdateInput "bug" (Some "old text") (Some "#bec2c8"))
                 "label-1")
              (inr InMemory.not_found))
           InMemory.not_found).
  - left; reflexivity.
  - reflexivity.
Defined.

(** ** Updating *)

(** C7: [Update] takes the identifier from the plan, and for the computed
    [id] with [UseStateForUnknown] (lines 46-53) the host plans the
    identifier of the prior state.  For every prior state and every plan
    that carries its identifier, a successful [Update] has made one call,
    the remote update keyed by the identifier of the prior state, and
    when the response echoes that identifier the state holds it
    afterwards, as a known value. *)
Theorem Update_keeps_identifier {Client W : Type}
    (rcv : TeamLabelResource Client) (server : Server W) (w : W)
    (req : UpdateRequest) (resp : Response)
    (plan prior : TeamLabelResourceModel) (e : Exchange) (l : Label) :
  tfsdk.Plan_Raw (update_Plan req) = Some plan ->
  tfsdk.State_Raw (update_State req) = Some prior ->
  Id plan = Id prior ->
  In e (log (run server (Update rcv req resp) w)) ->
  returned_label e = Some l ->
  Label_Id l = types.Value (Id prior) ->
  log (run server (Update rcv req resp) w) = [e]
  /\ (exists input, ex_call e = updateLabel input (types.Value (Id prior)))
  /\ exists r st,
       result (run server (Update rcv req resp) w) = Some r
       /\ tfsdk.State_Raw (State r) = Some st
       /\ Id st = types.OfValue (types.Value (Id prior))
       /\ types.Value (Id st) = types.Value (Id prior).
Proof.
  intros Hplan Hprior Hid Hin Hl Hecho.
  destruct (perform_success rcv server w (OpUpdate req) resp e l Hin Hl)
    as (data & Hsrc & Hlog & _ & Hno & Hres).
  cbn [perform source_model] in *.
  rewrite Hplan in Hsrc. injection Hsrc as <-.
  split; [exact Hlog|]. split.
  - revert Hlog. unfold Update, tfsdk.Plan_Get. rewrite Hplan, Append_nil.
    cbn [set_Diagnostics Diagnostics]. rewrite Hno.
    destruct rcv as [[cl|]]; cbn [client]; [|cbn; intros H; discriminate H].
    cbn [run].
    destruct (server _ w) as [[ok|bad] w']; cbn [run log]; intros Hlog;
      injection Hlog as <-; cbn [ex_call]; rewrite Hid; eauto.
  - eexists. eexists. split; [exact Hres|]. split; [reflexivity|].
    cbn. rewrite Hecho. split; reflexivity.
Qed.

Lemma Update_keeps_identifier_witness :
  let plan := set_Name Scenario.stored (types.OfValue "defect") in
  let req := mkUpdateRequest (tfsdk.mkPlan (Some plan))
               (tfsdk.mkState (Some Scenario.stored)) in
  let renamed := mkLabel "label-1" "defect" (Some "old text") (Some "#bec2c8")
                   (Some (mkTeamRef "team-1")) in
  let e := mkExchange
             (updateLabel (mkUpdateInput "defect" (Some "old text") (Some "#bec2c8"))
                "label-1")
             (inl (mkUpdateResponse (mkPayload renamed))) in
  Id plan = Id Scenario.stored
  /\ In e (log (run InMemory.server
                  (Update Scenario.configured req Scenario.after_create)
                  Scenario.populated))
  /\ returned_label e = Some renamed
  /\ Label_Id renamed = types.Value (Id Scenario.stored)
  /\ log (run InMemory.server (Update Scenario.configured req Scenario.after_create)
            Scenario.populated) = [e]
  /\ (exists input, ex_call e = updateLabel input "label-1")
  /\ exists r st,
       result (run InMemory.server
                 (Update Scenario.configured req Scenario.after_create)
                 Scenario.populated) = Some r
       /\ tfsdk.State_Raw (State r) = Some st
       /\ Id st = types.OfValue "label-1"
       /\ types.Value (Id st) = "label-1".
Proof.
  cbv zeta. split; [reflexivity|]. split; [left; reflexivity|].
  split; [reflexivity|]. split; [reflexivity|].
  apply (Update_keeps_identifier Scenario.configured InMemory.server
           Scenario.populated
           (mkUpdateRequest
              (tfsdk.mkPlan (Some (set_Name Scenario.stored (types.OfValue "defect"))))
              (tfsdk.mkState (Some Scenario.stored)))
           Scenario.after_create
           (set_Name Scenario.stored (types.OfValue "defect"))
           Scenario.stored
           (mkExchange
              (updateLabel (mkUpdateInput "defect" (Some "old text") (Some "#bec2c8"))
                 "label-1")
              (inl (mkUpdateResponse
                      (mkPayload (mkLabel "label-1" "defect" (Some "old text")
                                    (Some "#bec2c8") (Some (mkTeamRef "team-1")))))))
           (mkLabel "label-1" "defect" (Some "old text") (Some "#bec2c8")
              (Some (mkTeamRef "team-1")))).
  - reflexivity.
  - reflexivity.
  - reflexivity.
  - left; reflexivity.
  - reflexivity.
  - reflexivity.
Defined.

(** ** The request built from a plan *)

(** C10: a configured resource makes one call in [Create] and one in
    [Update]; in it the description is there exactly when the planned
    description is not null, and the colour exactly when the planned
    colour is not unknown; each carries the value field of the planned
    string, so a null colour goes out as the empty string. *)
Theorem optional_fields_of_the_request {Client W : Type}
    (rcv : TeamLabelResource Client) (server : Server W) (w : W)
    (resp : Response) (data : TeamLabelResourceModel) (c : Client) :
  client rcv = Some c ->
  diag.HasError (Diagnostics resp) = false ->
  (forall req : CreateRequest,
     tfsdk.Plan_Raw (create_Plan req) = Some data ->
     exists input,
       calls (run server (Create rcv req resp) w) = [createLabel input]
       /\ ci_Name input = types.Value (Name data)
       /\ ci_TeamId input = Some (types.Value (TeamId data))
       /\ ci_Description input
          = (if types.IsNull (Description data) then None
             else Some (types.Value (Description data)))
       /\ ci_Color input
          = (if types.IsUnknown (Color data) then None
             else Some (types.Value (Color data)))
       /\ (Color data = types.NullValue -> ci_Color input = Some ""))
  /\ (forall req : UpdateRequest,
       tfsdk.Plan_Raw (update_Plan req) = Some data ->
       exists input,
         calls (run server (Update rcv req resp) w)
         = [updateLabel input (types.Value (Id data))]
         /\ ui_Name input = types.Value (Name data)
         /\ ui_Description input
            = (if types.IsNull (Description data) then None
               else Some (types.Value (Description data)))
         /\ ui_Color input
            = (if types.IsUnknown (Color data) then None
               else Some (types.Value (Color data)))
         /\ (Color data = types.NullValue -> ui_Color input = Some "")).
Proof.
  intros Hcl Hno. split; intros req Hdata.
  - unfold Create, tfsdk.Plan_Get. rewrite Hdata, Append_nil.
    cbn [set_Diagnostics Diagnostics]. rewrite Hno, Hcl. cbn [run].
    destruct (server _ w) as [[ok|bad] w']; cbn [run];
      (eexists; split; [reflexivity|]);
      destruct data as [i n [du dn dv] [cu cn cv] t]; cbn;
      destruct dn, cu; cbn; repeat split; try reflexivity;
      intros Hc; try discriminate Hc; injection Hc as _ ->; reflexivity.
  - unfold Update, tfsdk.Plan_Get. rewrite Hdata, Append_nil.
    cbn [set_Diagnostics Diagnostics]. rewrite Hno, Hcl. cbn [run].
    destruct (server _ w) as [[ok|bad] w']; cbn [run];
      (eexists; split; [reflexivity|]);
      destruct data as [i n [du dn dv] [cu cn cv] t]; cbn;
      destruct dn, cu; cbn; repeat split; try reflexivity;
      intros Hc; try discriminate Hc; injection Hc as _ ->; reflexivity.
Qed.

Lemma optional_fields_of_the_request_witness :
  let data := {| Id := types.OfValue "label-1";
                 Name := types.OfValue "bug";
                 Description := types.NullValue;
                 Color := types.NullValue;
                 TeamId := types.OfValue "team-1" |} in
  client Scenario.configured = Some tt
  /\ diag.HasError (Diagnostics Scenario.fresh) = false
  /\ calls (run InMemory.server
             (Create Scenario.configured
                (mkCreateRequest (tfsdk.mkPlan (Some data))) Scenario.fresh)
             InMemory.empty)
     = [createLabel (mkCreateInput "bug" (Some "team-1") None (Some ""))]
  /\ exists input,
       calls (run InMemory.server
                (Create Scenario.configured
                   (mkCreateRequest (tfsdk.mkPlan (Some data))) Scenario.fresh)
                InMemory.empty)
       = [createLabel input]
       /\ ci_Name input = "bug"
       /\ ci_TeamId input = Some "team-1"
       /\ ci_Description input = None
       /\ ci_Color input = Some ""
       /\ (types.NullValue = types.NullValue -> ci_Color input = Some "").
Proof.
  cbv zeta. split; [reflexivity|]. split; [reflexivity|]. split; [reflexivity|].
  apply (proj1 (optional_fields_of_the_request Scenario.configured InMemory.server
                  InMemory.empty Scenario.fresh
                  {| Id := types.OfValue "label-1";
                     Name := types.OfValue "bug";
                     Description := types.NullValue;
                     Color := types.NullValue;
                     TeamId := types.OfValue "team-1" |}
                  tt eq_refl eq_refl)
           (mkCreateRequest (tfsdk.mkPlan (Some _))) eq_refl).
Defined.

(** ** Validation of the colour *)

Lemma color_attribute (colorRegex uuidRegex : string -> bool) :
  Attributes (GetSchema colorRegex uuidRegex).1 !! "color"
  = Some {| MarkdownDescription := "Color of the label.";
            Required := false; Optional := true; Computed := true;
            PlanModifiers := [UseStateForUnknown];
            Validators := [Match colorRegex] |}.
Proof. reflexivity. Qed.

(** C8: the schema puts the colour pattern on the [color] attribute; a
    configuration whose colour is set and does not match the pattern fails
    schema validation, and the host then runs no operation on it: no
    remote call is made, for [Create], [Update] or any other operation. *)
Theorem invalid_color_stops_before_any_call (colorRegex uuidRegex : string -> bool)
    (config : TeamLabelResourceModel) :
  types.IsNull (Color config) = false ->
  types.IsUnknown (Color config) = false ->
  colorRegex (types.Value (Color config)) = false ->
  (exists a, Attributes (GetSchema colorRegex uuidRegex).1 !! "color" = Some a
             /\ Validators a = [Match colorRegex])
  /\ ValidateConfig (GetSchema colorRegex uuidRegex).1 config = false
  /\ forall (Client W : Type) (rcv : TeamLabelResource Client)
            (server : Server W) (w : W) (op : Operation) (resp : Response),
       run server (host_apply colorRegex uuidRegex config rcv op resp) w
       = mkOutcome (Some Rejected) w [].
Proof.
  intros Hnull Hunknown Hmatch.
  assert (Hbad : ValidateConfig (GetSchema colorRegex uuidRegex).1 config = false).
  { unfold ValidateConfig.
    destruct (forallb _ _) eqn:Hall; [|reflexivity].
    rewrite forallb_forall in Hall.
    pose proof (color_attribute colorRegex uuidRegex) as Hcolor.
    apply elem_of_map_to_list, list_elem_of_In in Hcolor.
    specialize (Hall _ Hcolor).
    unfold attribute_passes, accepts in Hall.
    unfold types.IsNull, types.IsUnknown in *. cbn in Hall.
    change (attribute_of config "color") with (Some (Color config)) in Hall.
    cbn beta iota in Hall.
    rewrite Hnull, Hunknown, Hmatch in Hall. discriminate Hall. }
  split; [eexists; split; [apply color_attribute|reflexivity]|].
  split; [exact Hbad|].
  intros Client W rcv server w op resp. unfold host_apply. rewrite Hbad. reflexivity.
Qed.

Lemma invalid_color_stops_before_any_call_witness :
  let config := {| Id := types.NullValue;
                   Name := types.OfValue "bug";
                   Description := types.NullValue;
                   Color := types.OfValue "red";
                   TeamId := types.OfValue "team-1" |} in
  Sample.hex_color "red" = false
  /\ Sample.hex_color "#bec2c8" = true
  /\ ValidateConfig (GetSchema Sample.hex_color Sample.any_string).1 config = false
  /\ run InMemory.server
       (host_apply Sample.hex_color Sample.any_string config Scenario.configured
          (OpCreate (mkCreateRequest (tfsdk.mkPlan (Some config)))) Scenario.fresh)
       InMemory.empty
     = mkOutcome (Some Rejected) InMemory.empty [].
Proof.
  cbv zeta. split; [reflexivity|]. split; [reflexivity|].
  destruct (invalid_color_stops_before_any_call Sample.hex_color Sample.any_string
              {| Id := types.NullValue;
                 Name := types.OfValue "bug";
                 Description := types.NullValue;
                 Color := types.OfValue "red";
                 TeamId := types.OfValue "team-1" |}
              eq_refl eq_refl eq_refl)
    as (_ & Hbad & Hrun).
  split; [exact Hbad|]. apply Hrun.
Defined.

(** A configuration that passes validation reaches the operation: the
    host's run is the operation's run. *)
Lemma valid_config_is_applied (colorRegex uuidRegex : string -> bool)
    (config : TeamLabelResourceModel) {Client W : Type}
    (rcv : TeamLabelResource Client) (server : Server W) (w : W)
    (op : Operation) (resp : Response) :
  ValidateConfig (GetSchema colorRegex uuidRegex).1 config = true ->
  log (run server (host_apply colorRegex uuidRegex config rcv op resp) w)
  = log (run server (perform rcv op resp) w).
Proof.
  intros Hok. unfold host_apply. rewrite Hok.
  generalize (perform rcv op resp) as p. intros p. revert w.
  induction p as [a| |c k IH]; intros w; cbn; [reflexivity|reflexivity|].
  destruct (server c w) as [r w']. cbn. now rewrite IH.
Qed.

(** * Further properties of the operations *)

(** ** Before and around the remote call *)

Lemma set_Diagnostics_same (resp : Response) :
  set_Diagnostics resp (Diagnostics resp) = resp.
Proof. destruct resp; reflexivity. Qed.

(** X1: an operation that is handed a response which already holds an
    error returns at once (lines 123-125, 174-176, 210-212, 260-262): no
    remote call, the server as it was, the response as it was. *)
Theorem earlier_error_stops_the_operation {Client W : Type}
    (rcv : TeamLabelResource Client) (server : Server W) (w : W)
    (op : Operation) (resp : Response) :
  diag.HasError (Diagnostics resp) = true ->
  run server (perform rcv op resp) w = mkOutcome (Some resp) w [].
Proof.
  intros Herr.
  destruct op as [[[data]]|[[data]]|[[data] prior]|[[data]]];
    cbn [perform]; unfold Create, Read, Update, Delete;
    cbn [tfsdk.Plan_Get tfsdk.State_Get create_Plan read_State update_Plan
         delete_State tfsdk.Plan_Raw tfsdk.State_Raw];
    rewrite Append_nil, set_Diagnostics_same, Herr; reflexivity.
Qed.

Lemma earlier_error_stops_the_operation_witness :
  let resp := mkResponse (tfsdk.mkState (Some Scenario.stored))
                [diag.NewErrorDiagnostic "Earlier" "an error from before"] in
  diag.HasError (Diagnostics resp) = true
  /\ run InMemory.server
       (perform Scenario.configured
           (OpDelete (mkDeleteRequest (tfsdk.mkState (Some Scenario.stored)))) resp)
       Scenario.populated
     = mkOutcome (Some resp) Scenario.populated [].
Proof.
  cbv zeta. split; [reflexivity|].
  apply (earlier_error_stops_the_operation Scenario.configured
            InMemory.server Scenario.populated
           (OpDelete (mkDeleteRequest (tfsdk.mkState (Some Scenario.stored))))
           (mkResponse (tfsdk.mkState (Some Scenario.stored))
              [diag.NewErrorDiagnostic "Earlier" "an error from before"])).
  reflexivity.
Defined.

(** X2: whatever the server answers, each of the five operations makes at
    most one remote call, and none through a nil client (where the call
    would be, the operation panics instead).  A configured resource
    returns from [ImportState] always, and from [Create], [Read], [Update]
    and [Delete] whenever the plan or state they read holds an object. *)
Theorem at_most_one_remote_call (Quote : string -> string) {Client W : Type}
    (rcv : TeamLabelResource Client) (server : Server W) (w : W) :
  (forall (op : Operation) (resp : Response),
     length (log (run server (perform rcv op resp) w)) <= 1
     /\ (client rcv = None -> log (run server (perform rcv op resp) w) = [])
     /\ (client rcv <> None -> is_Some (source_model op) ->
         is_Some (result (run server (perform rcv op resp) w))))
  /\ (forall (req : ImportStateRequest) (resp : Response),
       length (log (run server (ImportState Quote rcv req resp) w)) <= 1
       /\ (client rcv = None ->
           log (run server (ImportState Quote rcv req resp) w) = [])
       /\ (client rcv <> None ->
           is_Some (result (run server (ImportState Quote rcv req resp) w)))).
Proof.
  split.
  - intros op resp.
    destruct op as [[[data]]|[[data]]|[[data] prior]|[[data]]];
      cbn [perform source_model]; unfold Create, Read, Update, Delete;
      cbn [tfsdk.Plan_Get tfsdk.State_Get create_Plan read_State update_Plan
           delete_State tfsdk.Plan_Raw tfsdk.State_Raw];
      rewrite Append_nil;
      cbn [set_Diagnostics Diagnostics State];
      (destruct (diag.HasError (Diagnostics resp));
       [cbn; split; [lia|split; [reflexivity|eauto]]|]);
      (destruct data as [data|];
       [|cbn; split; [lia|split; [reflexivity|intros _ [x Hx]; discriminate Hx]]]);
      (destruct rcv as [[cl|]]; cbn [client];
       [|cbn; split; [lia|split; [reflexivity|intros H; now destruct H]]]);
      cbn [run];
      match goal with |- context [server ?c w] => destruct (server c w) as [[ok|bad] w'] end;
      cbn; (split; [lia|split; [intros H; discriminate H|eauto]]).
  - intros req resp. unfold ImportState.
    destruct (negb _ || _ || _); [cbn; split; [lia|split; [reflexivity|eauto]]|].
    destruct rcv as [[cl|]]; cbn [client];
      [|cbn; split; [lia|split; [reflexivity|intros H; now destruct H]]].
    cbn [run]. destruct (server _ w) as [[response|err] w'].
    + cbn [run]. destruct (negb _);
        [cbn; split; [lia|split; [intros H; discriminate H|eauto]]|].
      destruct (tfsdk.State_SetAttribute _ _ _) as [ds st].
      cbn; split; [lia|split; [intros H; discriminate H|eauto]].
    + cbn; split; [lia|split; [intros H; discriminate H|eauto]].
Qed.

Lemma Append_more (ds new : diag.Diagnostics) :
  exists more, diag.Append ds new = ds ++ more.
Proof.
  revert ds. induction new as [|d new IH]; intros ds; cbn.
  - exists []. now rewrite app_nil_r.
  - destruct (diag.Contains ds d).
    + apply IH.
    + destruct (IH (ds ++ [d])) as [more ->].
      exists (d :: more). now rewrite <- app_assoc.
Qed.

(** X3: no operation drops or reorders a diagnostic it was handed: the
    diagnostics of the response it returns start with the diagnostics of
    the response it received, for every server. *)
Theorem diagnostics_only_grow (Quote : string -> string) {Client W : Type}
    (rcv : TeamLabelResource Client)
    (server : Server W) (w : W) (resp r : Response) :
  (forall op : Operation,
     result (run server (perform rcv op resp) w) = Some r ->
     exists more, Diagnostics r = Diagnostics resp ++ more)
  /\ (forall req : ImportStateRequest,
       result (run server (ImportState Quote rcv req resp) w) = Some r ->
       exists more, Diagnostics r = Diagnostics resp ++ more).
Proof.
  assert (Hsame : exists more : diag.Diagnostics,
             Diagnostics resp = Diagnostics resp ++ more).
  { exists []. now rewrite app_nil_r. }
  split.
  - intros op.
    destruct op as [[[data]]|[[data]]|[[data] prior]|[[data]]];
      cbn [perform]; unfold Create, Read, Update, Delete;
      cbn [tfsdk.Plan_Get tfsdk.State_Get create_Plan read_State update_Plan
           delete_State tfsdk.Plan_Raw tfsdk.State_Raw tfsdk.State_Set];
      rewrite !Append_nil;
      cbn [set_Diagnostics Diagnostics State];
      (destruct (diag.HasError (Diagnostics resp));
       [cbn; intros H; injection H as <-; exact Hsame|]);
      (destruct data as [data|]; [|cbn; intros H; discriminate H]);
      (destruct rcv as [[cl|]]; cbn [client]; [|cbn; intros H; discriminate H]);
      cbn [run];
      match goal with |- context [server ?c w] => destruct (server c w) as [[ok|bad] w'] end;
      cbn [run result]; intros H; injection H as <-;
      cbn [set_Diagnostics Diagnostics];
      first [exact Hsame | unfold diag.AddError; apply Append_more].
  - intros req. unfold ImportState.
    destruct (negb _ || _ || _);
      [cbn [run result]; intros H; injection H as <-;
       cbn [set_Diagnostics Diagnostics]; unfold diag.AddError; apply Append_more|].
    destruct rcv as [[cl|]]; cbn [client]; [|cbn; intros H; discriminate H].
    cbn [run]. destruct (server _ w) as [[response|err] w'].
    + cbn [run]. destruct (negb _);
        [cbn [run result]; intros H; injection H as <-;
         cbn [set_Diagnostics Diagnostics]; unfold diag.AddError; apply Append_more|].
      destruct (tfsdk.State_SetAttribute _ _ _) as [ds st].
      cbn [run result]; intros H; injection H as <-;
        cbn [Diagnostics]; apply Append_more.
    + cbn [run result]; intros H; injection H as <-;
        cbn [set_Diagnostics Diagnostics]; unfold diag.AddError; apply Append_more.
Qed.

(** ** Deleting *)

(** X4: when the remote deletion succeeds, [Delete] has made that one
    call, keyed by the identifier of the prior state, and returns the
    response exactly as it received it: it adds no diagnostic and does not
    itself touch the state (lines 255-272). *)
Theorem Delete_success_leaves_response {Client W : Type}
    (rcv : TeamLabelResource Client) (server : Server W) (w : W)
    (req : DeleteRequest) (resp : Response) (e : Exchange) :
  In e (log (run server (Delete rcv req resp) w)) ->
  ex_error e = None ->
  log (run server (Delete rcv req resp) w) = [e]
  /\ (exists data,
        tfsdk.State_Raw (delete_State req) = Some data
        /\ ex_call e = deleteLabel (types.Value (Id data)))
  /\ result (run server (Delete rcv req resp) w) = Some resp.
Proof.
  destruct req as [[data]]. unfold Delete.
  cbn [tfsdk.State_Get delete_State tfsdk.State_Raw].
  rewrite Append_nil, set_Diagnostics_same.
  destruct (diag.HasError (Diagnostics resp)); [cbn; intros []|].
  destruct data as [data|]; [|cbn; intros []].
  destruct rcv as [[cl|]]; cbn [client]; [|cbn; intros []].
  cbn [run]. destruct (server _ w) as [[ok|bad] w']; cbn [run log result].
  - intros [<-|[]] _. split; [reflexivity|]. split; [eauto|reflexivity].
  - intros [<-|[]] Herr. cbn in Herr. discriminate Herr.
Qed.

Lemma Delete_success_leaves_response_witness :
  let req := mkDeleteRequest (tfsdk.mkState (Some Scenario.stored)) in
  let e := mkExchange (deleteLabel "label-1") (inl tt) in
  In e (log (run InMemory.server (Delete Scenario.configured
                                     req Scenario.after_create) Scenario.populated))
  /\ ex_error e = None
  /\ result (run InMemory.server (Delete Scenario.configured
                                     req Scenario.after_create) Scenario.populated)
     = Some Scenario.after_create.
Proof.
  cbv zeta. split; [left; reflexivity|]. split; [reflexivity|].
  apply (Delete_success_leaves_response Scenario.configured
            InMemory.server Scenario.populated
           (mkDeleteRequest (tfsdk.mkState (Some Scenario.stored)))
           Scenario.after_create
           (mkExchange (deleteLabel "label-1") (inl tt))).
  - left; reflexivity.
  - reflexivity.
Defined.

(** ** Errors reported and remote failures *)

(** X5: started on a response without error, [Create], [Read], [Update]
    and [Delete] report an error exactly when their remote call failed: a
    successful call never adds an error, a failed one always does. *)
Theorem error_reported_iff_remote_failure {Client W : Type}
    (rcv : TeamLabelResource Client) (server : Server W) (w : W)
    (op : Operation) (resp r : Response) :
  diag.HasError (Diagnostics resp) = false ->
  result (run server (perform rcv op resp) w) = Some r ->
  diag.HasError (Diagnostics r) = true
  <-> exists e err, In e (log (run server (perform rcv op resp) w))
                    /\ ex_error e = Some err.
Proof.
  intros Hno.
  destruct op as [[[data]]|[[data]]|[[data] prior]|[[data]]];
    cbn [perform]; unfold Create, Read, Update, Delete;
    cbn [tfsdk.Plan_Get tfsdk.State_Get create_Plan read_State update_Plan
         delete_State tfsdk.Plan_Raw tfsdk.State_Raw tfsdk.State_Set];
    rewrite !Append_nil;
    cbn [set_Diagnostics Diagnostics State];
    rewrite Hno;
    (destruct data as [data|]; [|cbn; intros H; discriminate H]);
    (destruct rcv as [[cl|]]; cbn [client]; [|cbn; intros H; discriminate H]);
    cbn [run];
    match goal with |- context [server ?c w] => destruct (server c w) as [[ok|bad] w'] end;
    cbn [run result log]; intros H; injection H as <-;
    cbn [set_Diagnostics Diagnostics].
  all: try (rewrite Hno; split;
            [intros H; discriminate H
            |intros (e & err & [<-|[]] & He); cbn in He; discriminate He]).
  all: rewrite (AddError_error_free _ _ _ Hno);
    (split;
     [intros _; eexists; exists bad; split; [left; reflexivity|reflexivity]
     |intros _; unfold diag.HasError; rewrite existsb_app; cbn;
      apply orb_true_r]).
Qed.

Lemma error_reported_iff_remote_failure_witness :
  let op := OpRead (mkReadRequest (tfsdk.mkState (Some Scenario.stored))) in
  diag.HasError (Diagnostics Scenario.after_create) = false
  /\ result (run InMemory.server (perform Scenario.configured
                                     op Scenario.after_create) Scenario.populated)
     = Some Scenario.after_create
  /\ (diag.HasError (Diagnostics Scenario.after_create) = true
      <-> exists e err,
            In e (log (run InMemory.server (perform Scenario.configured
                                               op Scenario.after_create)
                         Scenario.populated))
            /\ ex_error e = Some err).
Proof.
  cbv zeta. split; [reflexivity|]. split; [reflexivity|].
  apply (error_reported_iff_remote_failure Scenario.configured
            InMemory.server Scenario.populated
           (OpRead (mkReadRequest (tfsdk.mkState (Some Scenario.stored))))
           Scenario.after_create Scenario.after_create); reflexivity.
Defined.

(** X6: when the search of [ImportState] fails, that search is the only
    call, the response gets the client error with the text of the failure,
    and its state is untouched (lines 286-291).  Unlike the other
    operations, [ImportState] does not look for earlier errors first. *)
Theorem ImportState_search_failure (Quote : string -> string) {Client W : Type}
    (rcv : TeamLabelResource Client)
    (server : Server W) (w : W) (req : ImportStateRequest) (resp : Response)
    (e : Exchange) (err : error) :
  In e (log (run server (ImportState Quote rcv req resp) w)) ->
  ex_error e = Some err ->
  log (run server (ImportState Quote rcv req resp) w) = [e]
  /\ result (run server (ImportState Quote rcv req resp) w)
     = Some (mkResponse (State resp)
               (diag.AddError (Diagnostics resp) "Client Error"
                  ("Unable to import team label, got error: " +:+ err)))
  /\ In (diag.NewErrorDiagnostic "Client Error"
           ("Unable to import team label, got error: " +:+ err))
        (diag.AddError (Diagnostics resp) "Client Error"
           ("Unable to import team label, got error: " +:+ err)).
Proof.
  unfold ImportState.
  destruct (negb _ || _ || _); [cbn; intros []|].
  destruct rcv as [[cl|]]; cbn [client]; [|cbn; intros []].
  cbn [run]. destruct (server _ w) as [[response|bad] w'].
  - cbn [run]. destruct (negb _).
    + cbn [run log]. intros [<-|[]] He. cbn in He. discriminate He.
    + destruct (tfsdk.State_SetAttribute _ _ _) as [ds st].
      cbn [run log]. intros [<-|[]] He. cbn in He. discriminate He.
  - cbn [run log result]. intros [<-|[]] He. cbn in He. injection He as ->.
    split; [reflexivity|]. split; [reflexivity|]. apply AddError_In.
Qed.

Lemma ImportState_search_failure_witness :
  let e := mkExchange (findTeamLabel "bug" "team-1") (inr Unreachable.refused) in
  In e (log (run Unreachable.server
               (ImportState Sample.quote Scenario.configured
                   Scenario.import_request Scenario.fresh) tt))
  /\ ex_error e = Some Unreachable.refused
  /\ result (run Unreachable.server
               (ImportState Sample.quote Scenario.configured
                   Scenario.import_request Scenario.fresh) tt)
     = Some (mkResponse (tfsdk.mkState None)
               [diag.NewErrorDiagnostic "Client Error"
                  "Unable to import team label, got error: connection refused"]).
Proof.
  cbv zeta. split; [left; reflexivity|]. split; [reflexivity|].
  destruct (ImportState_search_failure Sample.quote Scenario.configured
               Unreachable.server tt
              Scenario.import_request Scenario.fresh
              (mkExchange (findTeamLabel "bug" "team-1") (inr Unreachable.refused))
              Unreachable.refused (or_introl eq_refl) eq_refl)
    as (_ & Hres & _).
  exact Hres.
Defined.

(** ** The import identifier *)

Lemma Split_join (name key : string) :
  colon_free name = true -> colon_free key = true ->
  strings.Split (name +:+ ":" +:+ key) ":" = [name; key].
Proof.
  intros Hname Hkey. unfold strings.Split.
  assert (Hgo : forall a piece,
             colon_free a = true ->
             strings.split_from ":" 0 piece (a +:+ ":" +:+ key) = [piece +:+ a; key]).
  { induction a as [|c a IH]; intros piece Hfa.
    - change ("" +:+ ":" +:+ key) with (String ":"%char key).
      cbn [strings.split_from]. rewrite prefix_colon.
      change (String.length ":" - 1) with 0.
      rewrite (colon_free_split key "" Hkey), append_empty_r. reflexivity.
    - cbn in Hfa. apply andb_true_iff in Hfa as [Hc Hfa].
      apply negb_true_iff in Hc.
      change (String c a +:+ ":" +:+ key) with (String c (a +:+ ":" +:+ key)).
      cbn [strings.split_from]. rewrite prefix_colon, Hc.
      rewrite (IH _ Hfa), append_assoc. reflexivity. }
  exact (Hgo name "" Hname).
Qed.

Lemma Split_two_inv (id name key : string) :
  strings.Split id ":" = [name; key] ->
  id = name +:+ ":" +:+ key /\ colon_free name = true /\ colon_free key = true.
Proof.
  unfold strings.Split. intros Hparts.
  destruct (split_from_colon id "") as [[_ Hs]|(a & rest & -> & Ha & Hs)].
  - rewrite Hs in Hparts. discriminate Hparts.
  - rewrite Hs in Hparts. change ("" +:+ a) with a in Hparts.
    injection Hparts as -> Hrest.
    destruct (split_from_colon rest "") as [[Hfree Hr]|(b & rest' & _ & _ & Hr)].
    + rewrite Hr in Hrest. change ("" +:+ rest) with rest in Hrest.
      injection Hrest as ->. auto.
    + rewrite Hr in Hrest. injection Hrest as _ Hnil.
      destruct (split_from_colon rest' "") as [[_ E]|(x & y & _ & _ & E)];
        rewrite E in Hnil; discriminate Hnil.
Qed.

(** The calls of [ImportState], whatever the server answers. *)
Lemma ImportState_calls (Quote : string -> string) {Client W : Type}
    (rcv : TeamLabelResource Client)
    (server : Server W) (w : W) (req : ImportStateRequest) (resp : Response) :
  calls (run server (ImportState Quote rcv req resp) w)
  = if negb (Nat.eqb (length (strings.Split (ID req) ":")) 2)
       || bool_decide (nth 0 (strings.Split (ID req) ":") "" = "")
       || bool_decide (nth 1 (strings.Split (ID req) ":") "" = "")
    then []
    else match client rcv with
         | None => []
         | Some _ =>
             [findTeamLabel (nth 0 (strings.Split (ID req) ":") "")
                (nth 1 (strings.Split (ID req) ":") "")]
         end.
Proof.
  unfold ImportState.
  destruct (negb _ || _ || _); [reflexivity|].
  destruct rcv as [[cl|]]; cbn [client]; [|reflexivity].
  cbn [run]. destruct (server _ w) as [[response|bad] w']; [|reflexivity].
  cbn [run]. destruct (negb _); [reflexivity|].
  destruct (tfsdk.State_SetAttribute _ _ _) as [ds st]. reflexivity.
Qed.

(** X7: [ImportState] searches for a name and a team key exactly when the
    resource has a client and the identifier is that name, one colon and
    that key, both non-empty and free of colons; so the two arguments of
    the search, joined by a colon, give the identifier back, and nothing
    of it is trimmed or lost (lines 275-286). *)
Theorem ImportState_searches_the_two_parts (Quote : string -> string)
    {Client W : Type} (rcv : TeamLabelResource Client)
    (server : Server W) (w : W) (req : ImportStateRequest) (resp : Response)
    (name key : string) :
  calls (run server (ImportState Quote rcv req resp) w) = [findTeamLabel name key]
  <-> client rcv <> None
      /\ ID req = name +:+ ":" +:+ key
      /\ name <> "" /\ key <> ""
      /\ colon_free name = true /\ colon_free key = true.
Proof.
  rewrite ImportState_calls. split.
  - destruct (negb _ || _ || _) eqn:Hchk; [intros H; discriminate H|].
    destruct (client rcv) as [cl|]; [|intros H; discriminate H].
    apply parts_check in Hchk as (n & k & Hparts & Hn & Hk).
    rewrite Hparts. cbn [nth]. intros H. injection H as -> ->.
    destruct (Split_two_inv _ _ _ Hparts) as (Hid & Hfn & Hfk).
    split; [discriminate|]. auto.
  - intros (Hcl & Hid & Hn & Hk & Hfn & Hfk).
    rewrite Hid, (Split_join name key Hfn Hfk). cbn [length nth Nat.eqb negb orb].
    rewrite (bool_decide_eq_false_2 _ Hn), (bool_decide_eq_false_2 _ Hk).
    destruct (client rcv) as [cl|]; [reflexivity|now destruct Hcl].
Qed.

(** ** Operations one after the other *)

(** X8: an import that found one label, into the empty state the host
    starts an import with, followed by [Read] of the state it left: [Read]
    fetches the label by the identifier of the node found, and the state
    then holds the identifier and name of the label fetched, with its
    description, colour and team where it has them and null where it has
    not. *)
Theorem ImportState_then_Read (Quote : string -> string) {Client W : Type}
    (rcv : TeamLabelResource Client)
    (server : Server W) (w w1 : W) (req : ImportStateRequest) (resp r1 : Response)
    (e1 e2 : Exchange) (node : LabelNode) (l : Label) :
  tfsdk.State_Raw (State resp) = None ->
  In e1 (log (run server (ImportState Quote rcv req resp) w)) ->
  found_nodes e1 = Some [node] ->
  result (run server (ImportState Quote rcv req resp) w) = Some r1 ->
  In e2 (log (run server (Read rcv (mkReadRequest (State r1)) (mkResponse (State r1) []))
                w1)) ->
  returned_label e2 = Some l ->
  ex_call e2 = getLabel (Node_Id node)
  /\ exists r2 st,
       result (run server (Read rcv (mkReadRequest (State r1)) (mkResponse (State r1) []))
                 w1) = Some r2
       /\ Diagnostics r2 = []
       /\ tfsdk.State_Raw (State r2) = Some st
       /\ Id st = types.OfValue (Label_Id l)
       /\ Name st = types.OfValue (Label_Name l)
       /\ Description st
          = match Label_Description l with
            | Some v => types.OfValue v
            | None => types.NullValue
            end
       /\ Color st
          = match Label_Color l with
            | Some v => types.OfValue v
            | None => types.NullValue
            end
       /\ TeamId st
          = match Label_Team l with
            | Some team => types.OfValue (Team_Id team)
            | None => types.NullValue
            end.
Proof.
  intros Hnull Hin1 Hn Hr1 Hin2 Hl.
  assert (Hst : State r1
                = tfsdk.mkState
                    (Some (set_Id tfsdk.NullObject (types.OfValue (Node_Id node))))).
  { revert Hin1 Hr1. unfold ImportState.
    destruct (negb _ || _ || _); [cbn; intros []|].
    destruct rcv as [[cl|]]; cbn [client]; [|cbn; intros []].
    cbn [run]. destruct (server _ w) as [[response|bad] w'].
    - cbn [run]. destruct (negb _) eqn:Hone.
      + cbn [run log]. intros [<-|[]]. cbn in Hn. injection Hn as Hnodes.
        rewrite Hnodes in Hone. discriminate Hone.
      + cbn [run log]. intros [<-|[]]. cbn in Hn. injection Hn as Hnodes.
        rewrite Hnodes. unfold tfsdk.State_SetAttribute. rewrite Hnull.
        cbn. intros H. injection H as <-. reflexivity.
    - cbn [run log]. intros [<-|[]]. cbn in Hn. discriminate Hn. }
  rewrite Hst in *.
  set (seed := set_Id tfsdk.NullObject (types.OfValue (Node_Id node))) in *.
  set (req2 := mkReadRequest (tfsdk.mkState (Some seed))) in *.
  set (resp2 := mkResponse (tfsdk.mkState (Some seed)) []) in *.
  destruct (perform_success rcv server w1 (OpRead req2) resp2 e2 l Hin2 Hl)
    as (data & Hsrc & Hlog & _ & _ & Hres).
  cbn in Hsrc. injection Hsrc as <-. cbn [perform] in Hres, Hlog.
  split.
  - exact (Read_logged_call rcv server w1 req2 resp2 seed e2 eq_refl Hin2).
  - eexists. eexists. split; [exact Hres|]. split; [reflexivity|].
    split; [reflexivity|].
    destruct l as [i n [d|] [c|] [t|]]; cbn; repeat split; reflexivity.
Qed.

Lemma ImportState_then_Read_witness :
  let out1 := run InMemory.server
                (ImportState Sample.quote Scenario.configured
                    Scenario.import_request Scenario.fresh)
                Scenario.populated in
  let seeded := tfsdk.mkState
                  (Some (set_Id tfsdk.NullObject (types.OfValue "label-1"))) in
  let e2 := mkExchange (getLabel "label-1") (inl (mkGetResponse Scenario.created)) in
  result out1 = Some (mkResponse seeded [])
  /\ In e2 (log (run InMemory.server
                   (Read Scenario.configured (mkReadRequest seeded) (mkResponse seeded []))
                   Scenario.populated))
  /\ exists r2 st,
       result (run InMemory.server
                 (Read Scenario.configured (mkReadRequest seeded) (mkResponse seeded []))
                 Scenario.populated) = Some r2
       /\ Diagnostics r2 = []
       /\ tfsdk.State_Raw (State r2) = Some st
       /\ Id st = types.OfValue "label-1"
       /\ Name st = types.OfValue "bug"
       /\ Description st = types.OfValue "old text"
       /\ Color st = types.OfValue "#bec2c8"
       /\ TeamId st = types.OfValue "team-1".
Proof.
  cbv zeta. split; [reflexivity|]. split; [left; reflexivity|].
  apply (ImportState_then_Read Sample.quote Scenario.configured InMemory.server
           Scenario.populated Scenario.populated
           Scenario.import_request Scenario.fresh
           (mkResponse
              (tfsdk.mkState (Some (set_Id tfsdk.NullObject (types.OfValue "label-1"))))
              [])
           (Scenario.search_exchange [mkNode "label-1"])
           (mkExchange (getLabel "label-1") (inl (mkGetResponse Scenario.created)))
           (mkNode "label-1") Scenario.created).
  - reflexivity.
  - left; reflexivity.
  - reflexivity.
  - reflexivity.
  - left; reflexivity.
  - reflexivity.
Defined.

(** X9: when the label that came back carries a description, a colour and
    a team, the state written is the response, field for field, and no
    longer depends on the plan or state the operation started from. *)
Theorem complete_response_decides_the_state {Client W : Type}
    (rcv : TeamLabelResource Client) (server : Server W) (w : W)
    (op : Operation) (resp : Response) (e : Exchange) (l : Label)
    (d c : string) (team : TeamRef) :
  In e (log (run server (perform rcv op resp) w)) ->
  returned_label e = Some l ->
  Label_Description l = Some d ->
  Label_Color l = Some c ->
  Label_Team l = Some team ->
  result (run server (perform rcv op resp) w)
  = Some (mkResponse
            (tfsdk.mkState
               (Some {| Id := types.OfValue (Label_Id l);
                        Name := types.OfValue (Label_Name l);
                        Description := types.OfValue d;
                        Color := types.OfValue c;
                        TeamId := types.OfValue (Team_Id team) |}))
            (Diagnostics resp))
  /\ matches_response
       {| Id := types.OfValue (Label_Id l);
          Name := types.OfValue (Label_Name l);
          Description := types.OfValue d;
          Color := types.OfValue c;
          TeamId := types.OfValue (Team_Id team) |} l.
Proof.
  intros Hin Hl Hd Hc Ht.
  destruct (perform_success rcv server w op resp e l Hin Hl)
    as (data & _ & _ & _ & _ & Hres).
  rewrite Hres. unfold reconcile, matches_response. rewrite Hd, Hc, Ht.
  split; [reflexivity|]. cbn. repeat split; reflexivity.
Qed.

Lemma complete_response_decides_the_state_witness :
  In Scenario.create_exchange
     (log (run InMemory.server
             (perform Scenario.configured (OpCreate Scenario.create_request) Scenario.fresh)
             InMemory.empty))
  /\ returned_label Scenario.create_exchange = Some Scenario.created
  /\ result (run InMemory.server
               (perform Scenario.configured
                   (OpCreate Scenario.create_request) Scenario.fresh)
               InMemory.empty)
     = Some Scenario.after_create
  /\ matches_response Scenario.stored Scenario.created.
Proof.
  split; [left; reflexivity|]. split; [reflexivity|].
  apply (complete_response_decides_the_state Scenario.configured
            InMemory.server InMemory.empty
           (OpCreate Scenario.create_request) Scenario.fresh
           Scenario.create_exchange Scenario.created
           "old text" "#bec2c8" (mkTeamRef "team-1")).
  - left; reflexivity.
  - reflexivity.
  - reflexivity.
  - reflexivity.
  - reflexivity.
Defined.

(** X10: after any operation that brought a label back ([Create],
    [Update] or [Read] itself), a [Read] of the state it wrote that is
    answered with the same label writes that state again: reading an
    unchanged label never changes the state, whatever the response left
    out. *)
Theorem Read_of_unchanged_label_keeps_state {Client W : Type}
    (rcv : TeamLabelResource Client) (server : Server W)
    (w w1 : W) (op : Operation) (resp r1 : Response) (e1 e2 : Exchange) (l : Label) :
  In e1 (log (run server (perform rcv op resp) w)) ->
  returned_label e1 = Some l ->
  result (run server (perform rcv op resp) w) = Some r1 ->
  In e2 (log (run server (Read rcv (mkReadRequest (State r1)) (mkResponse (State r1) []))
                w1)) ->
  returned_label e2 = Some l ->
  exists r2,
    result (run server (Read rcv (mkReadRequest (State r1)) (mkResponse (State r1) []))
              w1) = Some r2
    /\ State r2 = State r1
    /\ Diagnostics r2 = [].
Proof.
  intros Hin1 Hl1 Hr1 Hin2 Hl2.
  destruct (perform_success rcv server w op resp e1 l Hin1 Hl1)
    as (data & _ & _ & _ & _ & Hres1).
  rewrite Hres1 in Hr1. injection Hr1 as <-. cbn [State] in *.
  set (req2 := mkReadRequest (tfsdk.mkState (Some (reconcile data l)))) in *.
  set (resp2 := mkResponse (tfsdk.mkState (Some (reconcile data l))) []) in *.
  destruct (perform_success rcv server w1 (OpRead req2) resp2 e2 l Hin2 Hl2)
    as (data2 & Hsrc2 & _ & _ & _ & Hres2).
  cbn in Hsrc2. injection Hsrc2 as <-. cbn [perform] in Hres2.
  eexists. split; [exact Hres2|].
  cbn [State Diagnostics resp2]. rewrite reconcile_idempotent. split; reflexivity.
Qed.

Lemma Read_of_unchanged_label_keeps_state_witness :
  let plan := set_Name Scenario.stored (types.OfValue "defect") in
  let op := OpUpdate (mkUpdateRequest (tfsdk.mkPlan (Some plan))
                        (tfsdk.mkState (Some Scenario.stored))) in
  let renamed := mkLabel "label-1" "defect" (Some "old text") (Some "#bec2c8")
                   (Some (mkTeamRef "team-1")) in
  let r1 := mkResponse (tfsdk.mkState (Some plan)) [] in
  let out1 := run InMemory.server (perform Scenario.configured op Scenario.after_create)
                Scenario.populated in
  result out1 = Some r1
  /\ exists r2,
       result (run InMemory.server
                 (Read Scenario.configured
                     (mkReadRequest (State r1)) (mkResponse (State r1) []))
                 (world out1)) = Some r2
       /\ State r2 = State r1
       /\ Diagnostics r2 = [].
Proof.
  cbv zeta. split; [reflexivity|].
  apply (Read_of_unchanged_label_keeps_state Scenario.configured InMemory.server
           Scenario.populated
           (world (run InMemory.server
                     (perform Scenario.configured
                        (OpUpdate
                           (mkUpdateRequest
                              (tfsdk.mkPlan
                                 (Some (set_Name Scenario.stored (types.OfValue "defect"))))
                              (tfsdk.mkState (Some Scenario.stored))))
                        Scenario.after_create)
                     Scenario.populated))
           (OpUpdate
              (mkUpdateRequest
                 (tfsdk.mkPlan (Some (set_Name Scenario.stored (types.OfValue "defect"))))
                 (tfsdk.mkState (Some Scenario.stored))))
           Scenario.after_create
           (mkResponse
              (tfsdk.mkState (Some (set_Name Scenario.stored (types.OfValue "defect"))))
              [])
           (mkExchange
              (updateLabel (mkUpdateInput "defect" (Some "old text") (Some "#bec2c8"))
                 "label-1")
              (inl (mkUpdateResponse
                      (mkPayload (mkLabel "label-1" "defect" (Some "old text")
                                    (Some "#bec2c8") (Some (mkTeamRef "team-1")))))))
           (mkExchange (getLabel "label-1")
              (inl (mkGetResponse (mkLabel "label-1" "defect" (Some "old text")
                                     (Some "#bec2c8") (Some (mkTeamRef "team-1"))))))
           (mkLabel "label-1" "defect" (Some "old text") (Some "#bec2c8")
              (Some (mkTeamRef "team-1")))).
  - left; reflexivity.
  - reflexivity.
  - reflexivity.
  - left; reflexivity.
  - reflexivity.
Defined.

(** ** Metadata, configuration and schema *)

Lemma append_length (a b : string) :
  String.length (a +:+ b) = String.length a + String.length b.
Proof.
  induction a as [|x a IH]; [reflexivity|].
  rewrite append_cons. cbn. now rewrite IH.
Qed.

Lemma append_cancel_r (a b s : string) : a +:+ s = b +:+ s -> a = b.
Proof.
  revert b. induction a as [|x a IH]; intros [|y b] H.
  - reflexivity.
  - apply (f_equal String.length) in H.
    change ("" +:+ s) with s in H.
    rewrite append_cons in H. cbn in H. rewrite append_length in H. lia.
  - apply (f_equal String.length) in H.
    change ("" +:+ s) with s in H.
    rewrite append_cons in H. cbn in H. rewrite append_length in H. lia.
  - rewrite !append_cons in H. injection H as -> H. f_equal. exact (IH b H).
Qed.

(** X11: for every request and whatever response it is handed, [Metadata]
    sets the type name to the provider's type name followed by
    "_team_label"; so two providers get the same resource type name only
    if they have the same type name themselves (lines 38-40). *)
Theorem Metadata_type_name_injective (req1 req2 : MetadataRequest)
    (resp1 resp2 : MetadataResponse) :
  TypeName (Metadata req1 resp1) = ProviderTypeName req1 +:+ "_team_label"
  /\ (TypeName (Metadata req1 resp1) = TypeName (Metadata req2 resp2) ->
      ProviderTypeName req1 = ProviderTypeName req2).
Proof.
  split; [reflexivity|].
  unfold Metadata. cbn [TypeName]. apply append_cancel_r.
Qed.

Lemma Metadata_type_name_injective_witness :
  TypeName (Metadata (mkMetadataRequest "linear") (mkMetadataResponse ""))
  = TypeName (Metadata (mkMetadataRequest "linear") (mkMetadataResponse "stale"))
  /\ TypeName (Metadata (mkMetadataRequest "linear") (mkMetadataResponse ""))
     = "linear_team_label"
  /\ ProviderTypeName (mkMetadataRequest "linear")
     = ProviderTypeName (mkMetadataRequest "linear").
Proof.
  split; [reflexivity|].
  destruct (Metadata_type_name_injective
              (mkMetadataRequest "linear") (mkMetadataRequest "linear")
              (mkMetadataResponse "") (mkMetadataResponse "stale"))
    as [Hname Hinj].
  split; [exact Hname|]. apply Hinj. reflexivity.
Defined.

Lemma In_Contains (ds : diag.Diagnostics) (d : diag.Diagnostic) :
  In d ds -> diag.Contains ds d = true.
Proof.
  intros Hin. unfold diag.Contains. apply existsb_exists.
  exists d. split; [exact Hin|]. now apply bool_decide_eq_true.
Qed.

Lemma AddError_twice (ds : diag.Diagnostics) (summary detail : string) :
  diag.AddError (diag.AddError ds summary detail) summary detail
  = diag.AddError ds summary detail.
Proof.
  pose proof (AddError_In ds summary detail) as Hin.
  apply In_Contains in Hin.
  unfold diag.AddError at 1. cbn [diag.Append]. now rewrite Hin.
Qed.

(** X12: [Configure] reports an error exactly when the provider data is
    there and is not a client pointer; it then leaves the client of the
    resource as it was, as it does for missing provider data, and it
    replaces the client only by a client pointer it was given, without
    touching the diagnostics (lines 98-116). *)
Theorem Configure_error_iff_other_type {Client : Type}
    (r : TeamLabelResource Client) (req : ConfigureRequest Client)
    (resp : ConfigureResponse) :
  diag.HasError (Configure_Diagnostics resp) = false ->
  (diag.HasError (Configure_Diagnostics (Configure r req resp).2) = true
   <-> exists type_name, ProviderData req = OtherValue type_name)
  /\ ((forall p, ProviderData req <> ClientPointer p) -> (Configure r req resp).1 = r)
  /\ (forall p, ProviderData req = ClientPointer p ->
        Configure r req resp = (mkResource p, resp)).
Proof.
  intros Hno. unfold Configure. destruct (ProviderData req) as [|p|t]; cbn [fst snd].
  - split; [|split].
    + rewrite Hno. split; [intros H; discriminate H|intros [t H]; discriminate H].
    + reflexivity.
    + intros p H. discriminate H.
  - split; [|split].
    + rewrite Hno. split; [intros H; discriminate H|intros [t H]; discriminate H].
    + intros H. destruct (H p eq_refl).
    + intros q H. injection H as ->. reflexivity.
  - split; [|split].
    + cbn [Configure_Diagnostics]. split; [eauto|]. intros _.
      apply (HasError_In _ (diag.NewErrorDiagnostic "Unexpected Resource Configure Type"
                              ("Expected *graphql.Client, got: " +:+ t
                                 +:+ ". Please report this issue to the provider developers.")));
        [apply AddError_In|reflexivity].
    + reflexivity.
    + intros p H. discriminate H.
Qed.

Lemma Configure_error_iff_other_type_witness :
  let r : TeamLabelResource nat := mkResource (Some 7) in
  let req : ConfigureRequest nat := mkConfigureRequest (OtherValue "string") in
  diag.HasError (Configure_Diagnostics (mkConfigureResponse [])) = false
  /\ Configure r req (mkConfigureResponse [])
     = (r, mkConfigureResponse
             [diag.NewErrorDiagnostic "Unexpected Resource Configure Type"
                "Expected *graphql.Client, got: string. Please report this issue to the provider developers."])
  /\ (diag.HasError (Configure_Diagnostics (Configure r req (mkConfigureResponse [])).2)
      = true
      <-> exists type_name, ProviderData req = OtherValue type_name).
Proof.
  cbv zeta. split; [reflexivity|]. split; [reflexivity|].
  apply (Configure_error_iff_other_type (mkResource (Some 7))
           (mkConfigureRequest (OtherValue "string")) (mkConfigureResponse [])).
  reflexivity.
Defined.

(** X13: configuring twice with the same request is configuring once: the
    same client, and the error for provider data of another type is not
    reported a second time. *)
Theorem Configure_twice {Client : Type}
    (r : TeamLabelResource Client) (req : ConfigureRequest Client)
    (resp : ConfigureResponse) :
  Configure (Configure r req resp).1 req (Configure r req resp).2
  = Configure r req resp.
Proof.
  unfold Configure. destruct (ProviderData req) as [|p|t]; cbn [fst snd].
  - reflexivity.
  - reflexivity.
  - cbn [Configure_Diagnostics]. now rewrite AddError_twice.
Qed.

(** X14: the schema has an attribute for every field of the model and no
    other: a name is a key of the schema's attributes exactly when it is
    the [tfsdk] tag of a field of [TeamLabelResourceModel] (lines 30-36
    against lines 45-94). *)
Theorem schema_attributes_are_the_model_fields (colorRegex uuidRegex : string -> bool)
    (config : TeamLabelResourceModel) (name : string) :
  is_Some (Attributes (GetSchema colorRegex uuidRegex).1 !! name)
  <-> is_Some (attribute_of config name).
Proof.
  unfold GetSchema, attribute_of. cbn [fst Attributes list_to_map foldr snd].
  destruct (decide (name = "id")) as [->|H1]; [split; intros _; eexists; reflexivity|].
  destruct (decide (name = "name")) as [->|H2]; [split; intros _; eexists; reflexivity|].
  destruct (decide (name = "description")) as [->|H3];
    [split; intros _; eexists; reflexivity|].
  destruct (decide (name = "color")) as [->|H4]; [split; intros _; eexists; reflexivity|].
  destruct (decide (name = "team_id")) as [->|H5];
    [split; intros _; eexists; reflexivity|].
  rewrite !lookup_insert_ne by congruence. rewrite lookup_empty.
  rewrite (bool_decide_eq_false_2 _ H1), (bool_decide_eq_false_2 _ H2),
    (bool_decide_eq_false_2 _ H3), (bool_decide_eq_false_2 _ H4),
    (bool_decide_eq_false_2 _ H5).
  split; intros [x Hx]; discriminate Hx.
Qed.

(** ** What the state is touched by *)

(** X15: [ImportState] changes the state in one case only: the search
    succeeded with exactly one node.  In every other case (malformed
    identifier, failed search, no node, several nodes) the state it
    returns is the state it was handed. *)
Theorem ImportState_touches_state_only_on_one_match (Quote : string -> string)
    {Client W : Type}
    (rcv : TeamLabelResource Client) (server : Server W) (w : W) (req : ImportStateRequest)
    (resp r : Response) :
  result (run server (ImportState Quote rcv req resp) w) = Some r ->
  State r = State resp
  \/ exists e node,
       log (run server (ImportState Quote rcv req resp) w) = [e]
       /\ found_nodes e = Some [node]
       /\ State r = (tfsdk.State_SetAttribute (State resp) "id" (Node_Id node)).2.
Proof.
  unfold ImportState.
  destruct (negb _ || _ || _);
    [cbn [run result]; intros H; injection H as <-; left; reflexivity|].
  destruct rcv as [[cl|]]; cbn [client]; [|cbn; intros H; discriminate H].
  cbn [run]. destruct (server _ w) as [[response|bad] w'].
  - cbn [run]. destruct (negb _) eqn:Hone.
    + cbn [run result]; intros H; injection H as <-; left; reflexivity.
    + apply negb_false_iff, Nat.eqb_eq in Hone.
      destruct (Nodes (IssueLabels response)) as [|node [|other rest]] eqn:Hnodes;
        try discriminate Hone.
      cbn [nth].
      destruct (tfsdk.State_SetAttribute (State resp) "id" (Node_Id node))
        as [ds st] eqn:Hset.
      cbn [run result log]. intros H. injection H as <-. right.
      eexists. exists node. split; [reflexivity|].
      split; [cbn; now rewrite Hnodes|]. now rewrite Hset.
  - cbn [run result]; intros H; injection H as <-; left; reflexivity.
Qed.

Lemma ImportState_touches_state_only_on_one_match_witness :
  result (run InMemory.server
            (ImportState Sample.quote Scenario.configured
                (mkImportStateRequest "bug") Scenario.after_create)
            Scenario.populated)
  = Some (mkResponse (tfsdk.mkState (Some Scenario.stored))
            [format_error Sample.quote "bug"])
  /\ (State (mkResponse (tfsdk.mkState (Some Scenario.stored))
               [format_error Sample.quote "bug"])
      = State Scenario.after_create
      \/ exists e node,
           log (run InMemory.server
                  (ImportState Sample.quote Scenario.configured (mkImportStateRequest "bug")
                     Scenario.after_create)
                  Scenario.populated) = [e]
           /\ found_nodes e = Some [node]
           /\ State (mkResponse (tfsdk.mkState (Some Scenario.stored))
                       [format_error Sample.quote "bug"])
              = (tfsdk.State_SetAttribute (State Scenario.after_create) "id"
                   (Node_Id node)).2).
Proof.
  split; [reflexivity|].
  apply (ImportState_touches_state_only_on_one_match Sample.quote Scenario.configured
            InMemory.server
           Scenario.populated (mkImportStateRequest "bug") Scenario.after_create
           (mkResponse (tfsdk.mkState (Some Scenario.stored))
              [format_error Sample.quote "bug"])).
  reflexivity.
Defined.

(** A resource that was seen to make a call has a client. *)
Lemma logged_call_has_client {Client W : Type} (rcv : TeamLabelResource Client)
    (server : Server W) (w : W) (op : Operation) (resp : Response) (e : Exchange) :
  In e (log (run server (perform rcv op resp) w)) -> client rcv <> None.
Proof.
  destruct rcv as [[cl|]]; [discriminate|].
  destruct op as [[[data]]|[[data]]|[[data] prior]|[[data]]];
    cbn [perform]; unfold Create, Read, Update, Delete;
    cbn [tfsdk.Plan_Get tfsdk.State_Get create_Plan read_State update_Plan
         delete_State tfsdk.Plan_Raw tfsdk.State_Raw client];
    destruct (diag.HasError _); try (cbn; intros []);
    destruct data as [data|]; cbn; intros [].
Qed.

(** X16: the identifier the server returned is the one the resource is
    deleted by: after any operation that brought a label back, [Delete] of
    the state it wrote, by the same resource, makes one call, the remote
    deletion of the label with the returned identifier, whatever
    identifier the plan carried. *)
Theorem Delete_uses_the_returned_identifier {Client W : Type}
    (rcv : TeamLabelResource Client) (server : Server W)
    (w w1 : W) (op : Operation) (resp r1 : Response) (e1 : Exchange) (l : Label) :
  In e1 (log (run server (perform rcv op resp) w)) ->
  returned_label e1 = Some l ->
  result (run server (perform rcv op resp) w) = Some r1 ->
  calls (run server (Delete rcv (mkDeleteRequest (State r1)) (mkResponse (State r1) []))
           w1)
  = [deleteLabel (Label_Id l)].
Proof.
  intros Hin Hl Hr1.
  destruct (perform_success rcv server w op resp e1 l Hin Hl)
    as (data & _ & _ & _ & _ & Hres).
  rewrite Hres in Hr1. injection Hr1 as <-. cbn [State].
  pose proof (logged_call_has_client rcv server w op resp e1 Hin) as Hcl.
  unfold Delete. cbn [tfsdk.State_Get delete_State tfsdk.State_Raw].
  rewrite Append_nil. cbn [set_Diagnostics Diagnostics diag.HasError existsb].
  destruct (client rcv) as [cl|]; [|now destruct Hcl].
  cbn [run]. destruct (server _ w1) as [[ok|bad] w2]; reflexivity.
Qed.

Lemma Delete_uses_the_returned_identifier_witness :
  In Scenario.create_exchange
     (log (run InMemory.server
             (perform Scenario.configured (OpCreate Scenario.create_request) Scenario.fresh)
             InMemory.empty))
  /\ returned_label Scenario.create_exchange = Some Scenario.created
  /\ calls (run InMemory.server
             (Delete Scenario.configured (mkDeleteRequest (State Scenario.after_create))
                (mkResponse (State Scenario.after_create) []))
             Scenario.populated)
     = [deleteLabel "label-1"].
Proof.
  split; [left; reflexivity|]. split; [reflexivity|].
  apply (Delete_uses_the_returned_identifier Scenario.configured
            InMemory.server InMemory.empty
           Scenario.populated (OpCreate Scenario.create_request) Scenario.fresh
           Scenario.after_create Scenario.create_exchange Scenario.created).
  - left; reflexivity.
  - reflexivity.
  - reflexivity.
Defined.

(** ** The general statements on a run *)

Lemma at_most_one_remote_call_witness :
  let op := OpCreate Scenario.create_request in
  client Scenario.configured <> None
  /\ is_Some (source_model op)
  /\ length (log (run InMemory.server (perform Scenario.configured op Scenario.fresh)
                    InMemory.empty)) <= 1
  /\ is_Some (result (run InMemory.server
                        (perform Scenario.configured op Scenario.fresh)
                        InMemory.empty))
  /\ log (run InMemory.server
            (perform (@NewTeamLabelResource unit) op Scenario.fresh) InMemory.empty)
     = [].
Proof.
  cbv zeta.
  assert (Hcl : client Scenario.configured <> None) by discriminate.
  assert (Hsrc : is_Some (source_model (OpCreate Scenario.create_request))).
  { eexists. reflexivity. }
  split; [exact Hcl|]. split; [exact Hsrc|].
  destruct (proj1 (at_most_one_remote_call Sample.quote Scenario.configured
                     InMemory.server InMemory.empty)
              (OpCreate Scenario.create_request) Scenario.fresh)
    as (Hlen & _ & Hres).
  split; [exact Hlen|]. split; [exact (Hres Hcl Hsrc)|].
  destruct (proj1 (at_most_one_remote_call Sample.quote (@NewTeamLabelResource unit)
                     InMemory.server InMemory.empty)
              (OpCreate Scenario.create_request) Scenario.fresh)
    as (_ & Hnil & _).
  exact (Hnil eq_refl).
Defined.

Lemma diagnostics_only_grow_witness :
  let op := OpRead (mkReadRequest (tfsdk.mkState (Some Scenario.stored))) in
  let r := mkResponse (tfsdk.mkState (Some Scenario.stored))
             [diag.NewErrorDiagnostic "Client Error"
                "Unable to read team label, got error: connection refused"] in
  result (run Unreachable.server (perform Scenario.configured
                                     op Scenario.after_create) tt) = Some r
  /\ exists more, Diagnostics r = Diagnostics Scenario.after_create ++ more.
Proof.
  cbv zeta. split; [reflexivity|].
  apply (proj1 (diagnostics_only_grow Sample.quote Scenario.configured Unreachable.server tt
                  Scenario.after_create
                  (mkResponse (tfsdk.mkState (Some Scenario.stored))
                     [diag.NewErrorDiagnostic "Client Error"
                        "Unable to read team label, got error: connection refused"]))
           (OpRead (mkReadRequest (tfsdk.mkState (Some Scenario.stored))))).
  reflexivity.
Defined.

(** ** The resource without a client *)

(** X17: a resource whose client pointer is nil (as [NewTeamLabelResource]
    leaves it, and [Configure] too when it is given no provider data)
    panics where the remote call would be: [Create], [Read], [Update] and
    [Delete] once they have read an object without an earlier error,
    [ImportState] once the identifier has passed the check.  No call is
    made and the server is as it was. *)
Theorem nil_client_panics (Quote : string -> string) {Client W : Type}
    (rcv : TeamLabelResource Client) (server : Server W) (w : W) (resp : Response) :
  client rcv = None ->
  (forall op : Operation,
     diag.HasError (Diagnostics resp) = false ->
     is_Some (source_model op) ->
     run server (perform rcv op resp) w = mkOutcome None w [])
  /\ (forall req : ImportStateRequest,
       two_nonempty_parts (strings.Split (ID req) ":") ->
       run server (ImportState Quote rcv req resp) w = mkOutcome None w []).
Proof.
  intros Hnil. split.
  - intros op Hno Hsrc.
    destruct op as [[[data]]|[[data]]|[[data] prior]|[[data]]];
      cbn [perform source_model] in *; unfold Create, Read, Update, Delete;
      cbn [tfsdk.Plan_Get tfsdk.State_Get create_Plan read_State update_Plan
           delete_State tfsdk.Plan_Raw tfsdk.State_Raw] in *;
      rewrite Append_nil;
      cbn [set_Diagnostics Diagnostics State];
      rewrite Hno;
      (destruct data as [data|]; [|destruct Hsrc as [x Hx]; discriminate Hx]);
      rewrite Hnil; reflexivity.
  - intros req Hok. apply parts_check in Hok.
    unfold ImportState. rewrite Hok, Hnil. reflexivity.
Qed.

Lemma nil_client_panics_witness :
  let unconfigured :=
    (Configure (@NewTeamLabelResource unit) (mkConfigureRequest NilInterface)
       (mkConfigureResponse [])).1 in
  client unconfigured = None
  /\ run InMemory.server
       (perform unconfigured (OpCreate Scenario.create_request) Scenario.fresh)
       InMemory.empty
     = mkOutcome None InMemory.empty [].
Proof.
  cbv zeta. split; [reflexivity|].
  apply (proj1 (nil_client_panics Sample.quote
                  (Configure (@NewTeamLabelResource unit)
                     (mkConfigureRequest NilInterface) (mkConfigureResponse [])).1
                  InMemory.server InMemory.empty Scenario.fresh eq_refl)
           (OpCreate Scenario.create_request)).
  - reflexivity.
  - eexists. reflexivity.
Defined.
